(** * OCL flexible importer: a shallow embedding of [oclfleximporter.py]

    The development follows the Python module class by class:
    - Python values, dictionary keys and exceptions;
    - [OclImportResults]: the results aggregator ([add], [add_skip]);
    - [OclFlexImporter]: the resource type registry [obj_def], the existence
      probe [does_object_exist], the resolver and probes of [process_object],
      the executor [update_or_create], [find_nth] and the driver [process].

    Dictionaries are finite maps ([gmap]); an instance of a class is a record
    that every method takes and returns; a raised exception is the [Err] case
    of [result], returned next to the state as the method left it. *)

From stdpp Require Import gmap strings pretty list fin_maps.
From Stdlib Require Import ZArith Ascii String.

#[local] Open Scope string_scope.
#[local] Open Scope Z_scope.

Set Warnings "-register-all".

(** ** Python values *)

(** What [json.loads] produces. Numbers are integers here: a float behaves
    like an integer in every operation the importer applies to a field. *)
Inductive jval :=
| JNull
| JBool (b : bool)
| JNum (n : Z)
| JStr (s : string)
| JArr (l : list jval)
| JObj (l : list (string * jval)).

(** Keys of the dictionaries of [OclImportResults]: [None], an integer (a
    status code) or a string. *)
Inductive pykey :=
| KNone
| KInt (z : Z)
| KStr (s : string).

#[global] Instance pykey_eq_dec : EqDecision pykey.
Proof. solve_decision. Defined.

#[global] Instance pykey_countable : Countable pykey.
Proof.
  refine (inj_countable'
    (fun k => match k with
              | KNone => inl tt
              | KInt z => inr (inl z)
              | KStr s => inr (inr s)
              end)
    (fun x => match x with
              | inl _ => KNone
              | inr (inl z) => KInt z
              | inr (inr s) => KStr s
              end) _).
  by intros [].
Defined.

(** The exceptions of the module, and the built-in ones its code can raise. *)
Inductive pyexc :=
| TypeError
| KeyError
| AttributeError
| IndexError
| UnboundLocalError
| UnexpectedStatusCodeError (expression : string) (status_code : Z)
| InvalidOwnerError (obj_type : string)
| InvalidRepositoryError (obj_type : string)
| InvalidObjectDefinition (obj_type : string)
| HTTPError (status_code : Z).

Inductive result (A : Type) :=
| Ok (a : A)
| Err (e : pyexc).
Arguments Ok {A} a.
Arguments Err {A} e.

(** Sequencing: the first exception raised ends the computation. *)
#[global] Instance result_bind : MBind result := λ A B k r,
  match r with
  | Ok a => k a
  | Err e => Err e
  end.

#[global] Instance result_ret : MRet result := λ A a, Ok a.

(** Truth value of a Python object ([if x:], [not x]). *)
Definition truthy (v : jval) : bool :=
  match v with
  | JNull => false
  | JBool b => b
  | JNum n => negb (n =? 0)
  | JStr s => negb (String.eqb s "")
  | JArr l => match l with [] => false | _ => true end
  | JObj l => match l with [] => false | _ => true end
  end.

(** [v == s] for a string constant [s]. *)
Definition eq_str (v : jval) (s : string) : bool :=
  match v with
  | JStr t => String.eqb t s
  | _ => false
  end.

(** [s + v]: concatenation to a string; anything but a string is a
    [TypeError]. *)
Definition str_add (s : string) (v : jval) : result string :=
  match v with
  | JStr t => Ok (s ++ t)
  | _ => Err TypeError
  end.

(** [v + s], same. *)
Definition add_str (v : jval) (s : string) : result string :=
  match v with
  | JStr t => Ok (t ++ s)
  | _ => Err TypeError
  end.

(** Hashing a value to use it as a dictionary key: lists and dictionaries are
    unhashable, [True] and [False] are the keys [1] and [0]. *)
Definition to_key (v : jval) : result pykey :=
  match v with
  | JNull => Ok KNone
  | JBool b => Ok (KInt (if b then 1 else 0))
  | JNum n => Ok (KInt n)
  | JStr s => Ok (KStr s)
  | JArr _ | JObj _ => Err TypeError
  end.

(** ** Constants of [OclFlexImporter] *)

Definition OBJ_TYPE_USER := "User".
Definition OBJ_TYPE_ORGANIZATION := "Organization".
Definition OBJ_TYPE_SOURCE := "Source".
Definition OBJ_TYPE_COLLECTION := "Collection".
Definition OBJ_TYPE_CONCEPT := "Concept".
Definition OBJ_TYPE_MAPPING := "Mapping".
Definition OBJ_TYPE_REFERENCE := "Reference".
Definition OBJ_TYPE_SOURCE_VERSION := "Source Version".
Definition OBJ_TYPE_COLLECTION_VERSION := "Collection Version".

Definition ACTION_TYPE_NEW := "new".
Definition ACTION_TYPE_UPDATE := "update".

(** ** class OclImportResults *)

Module OclImportResults.

Definition SKIP_KEY := "SKIPPED".
Definition NO_OBJECT_TYPE_KEY := "NO-OBJECT-TYPE".
Definition ORGS_RESULTS_ROOT := "/orgs/".
Definition USERS_RESULTS_ROOT := "/users/".

(** What is stored at [_results[root][key]]: the dictionary [{}] that [add]
    creates (status code to list of descriptors), or the list [[]] that
    [add_skip] creates. Nothing appends to a list stored at this level, so
    the only list here is the empty one. *)
Inductive slot :=
| SlotDict (d : gmap pykey (list string))
| SlotList.

Record t := mk {
  _results : gmap pykey (gmap pykey slot);
  count : Z;
  num_skipped : Z;
  total_lines : Z
}.

(** [__init__] *)
Definition init (total_lines : Z) : t :=
  {| _results := ∅; count := 0; num_skipped := 0; total_lines := total_lines |}.

Definition set_results (r : t) (m : gmap pykey (gmap pykey slot)) : t :=
  {| _results := m; count := count r; num_skipped := num_skipped r;
     total_lines := total_lines r |}.

(** The first dimension (the "logging root") of the results of [add]. *)
Definition logging_root (obj_type : string) (obj_repo_url obj_owner_url : jval) : jval :=
  if bool_decide (obj_type ∈ [OBJ_TYPE_CONCEPT; OBJ_TYPE_MAPPING; OBJ_TYPE_REFERENCE])
  then obj_repo_url
  else if bool_decide (obj_type ∈ [OBJ_TYPE_SOURCE; OBJ_TYPE_COLLECTION])
  then obj_owner_url
  else if bool_decide (obj_type = OBJ_TYPE_ORGANIZATION) then JStr ORGS_RESULTS_ROOT
  else if bool_decide (obj_type = OBJ_TYPE_USER) then JStr USERS_RESULTS_ROOT
  else JStr "".

(** [d[k] = v] unless [k in d]. *)
Definition setdefault {K : Type} `{Countable K} {V : Type} (k : K) (v : V)
    (d : gmap K V) : gmap K V :=
  match d !! k with
  | Some _ => d
  | None => <[k := v]> d
  end.

(** [add]: lines 117-125. The state is returned as the method left it, also
    when it raises. *)
Definition add (r : t) (obj_url action_type obj_type : string) (obj_repo_url : jval)
    (http_method : string) (obj_owner_url : jval) (status_code : option Z)
    : t * result unit :=
  match to_key (logging_root obj_type obj_repo_url obj_owner_url) with
  | Err e => (r, Err e)
  | Ok root =>
    let status := match status_code with Some c => KInt c | None => KNone end in
    let res1 := setdefault root ∅ (_results r) in
    let by_action := setdefault (KStr action_type) (SlotDict ∅) (default ∅ (res1 !! root)) in
    match by_action !! KStr action_type with
    | Some (SlotDict by_status) =>
      let by_status1 := setdefault status [] by_status in
      let entries := (default [] (by_status1 !! status) ++ [(http_method ++ " " ++ obj_url)%string])%list in
      let by_action1 := <[KStr action_type := SlotDict (<[status := entries]> by_status1)]> by_action in
      ({| _results := <[root := by_action1]> res1;
          count := count r + 1;
          num_skipped := num_skipped r;
          total_lines := total_lines r |}, Ok tt)
    | _ =>
      (* [status_code not in []] holds, and [[][status_code] = []] raises *)
      (set_results r (<[root := by_action]> res1),
       Err (match status with KInt _ => IndexError | _ => TypeError end))
    end
  end.

(** [add_skip]: lines 134-144. *)
Definition add_skip (r : t) (obj_type : jval) (text : string) : t * result unit :=
  let res1 := setdefault (KStr SKIP_KEY) ∅ (_results r) in
  let obj_type := if truthy obj_type then obj_type else JStr NO_OBJECT_TYPE_KEY in
  match to_key obj_type with
  | Err e => (set_results r res1, Err e)
  | Ok key =>
    let skipped := setdefault key SlotList (default ∅ (res1 !! KStr SKIP_KEY)) in
    match skipped !! key with
    | Some (SlotDict d) =>
      let d1 := setdefault (KStr SKIP_KEY) [] d in
      let entries := (default [] (d1 !! KStr SKIP_KEY) ++ [text])%list in
      let skipped1 := <[key := SlotDict (<[KStr SKIP_KEY := entries]> d1)]> skipped in
      ({| _results := <[KStr SKIP_KEY := skipped1]> res1;
          count := count r + 1;
          num_skipped := num_skipped r + 1;
          total_lines := total_lines r |}, Ok tt)
    | _ =>
      (* line 140: [SKIP_KEY not in []] holds; line 141 indexes the list of
         line 139 by a string *)
      (set_results r (<[KStr SKIP_KEY := skipped]> res1), Err TypeError)
    end
  end.

(** The texts recorded in the skip bucket of a type. *)
Definition skipped_texts (r : t) (key : pykey) : list string :=
  match _results r !! KStr SKIP_KEY with
  | Some skipped =>
    match skipped !! key with
    | Some (SlotDict d) => default [] (d !! KStr SKIP_KEY)
    | _ => []
    end
  | None => []
  end.

(** The descriptors recorded by [add] under root, action type and status. *)
Definition outcomes (r : t) (root action status : pykey) : list string :=
  match _results r !! root with
  | Some by_action =>
    match by_action !! action with
    | Some (SlotDict d) => default [] (d !! status)
    | _ => []
    end
  | None => []
  end.




Section Has.

(** [int] applied to a string, as Python parses it. *)
Variable int_of_str : string → result Z.





End Has.

(** The sum that [get_summary] makes for a root: the lengths of the lists
    under every action type and status code. *)
Definition slot_total (s : slot) : Z :=
  match s with
  | SlotDict d => map_fold (fun _ l acc => acc + Z.of_nat (List.length l)) 0 d
  | SlotList => 0
  end.

Definition num_processed (by_action : gmap pykey slot) : Z :=
  map_fold (fun _ s acc => acc + slot_total s) 0 by_action.



End OclImportResults.

(** ** Strings: [str.find] and slicing *)

(** [skip n s] is [s[n:]] for [0 <= n]. *)
Fixpoint skip (n : nat) (s : string) : string :=
  match n, s with
  | O, _ => s
  | S n', String _ s' => skip n' s'
  | S _, EmptyString => EmptyString
  end.

(** The first position, counted from [pos], at which [sub] starts in [s]. *)
Fixpoint find_from (sub s : string) (pos : nat) : option nat :=
  if String.prefix sub s then Some pos
  else match s with
       | EmptyString => None
       | String _ s' => find_from sub s' (S pos)
       end.

(** [s.find(sub, start)]: the lowest index at or after [start] where [sub]
    occurs, [-1] when there is none. A negative [start] counts from the end. *)
Definition str_find (s sub : string) (start : Z) : Z :=
  let len := Z.of_nat (String.length s) in
  let start := if start <? 0 then Z.max 0 (len + start) else start in
  if len <? start then -1
  else match find_from sub (skip (Z.to_nat start) s) (Z.to_nat start) with
       | Some i => Z.of_nat i
       | None => -1
       end.

(** [s[:stop]] *)
Definition slice_to (s : string) (stop : Z) : string :=
  let len := Z.of_nat (String.length s) in
  let stop := if stop <? 0 then Z.max 0 (len + stop) else stop in
  String.substring 0 (Z.to_nat stop) s.

(** The last character of a string, [None] for the empty one. *)
Fixpoint last_char (s : string) : option ascii :=
  match s with
  | EmptyString => None
  | String a EmptyString => Some a
  | String _ s' => last_char s'
  end.

(** The number of occurrences of a character. *)
Fixpoint count_char (c : ascii) (s : string) : nat :=
  match s with
  | EmptyString => O
  | String a s' => ((if Ascii.eqb a c then 1 else 0) + count_char c s')%nat
  end.

(** ** class OclFlexImporter *)

Abbreviation record := (gmap string jval).

(** One entry of the resource type definitions. [id_field] and
    [omit_resource_name_on_get] are keys that an entry may lack; a method is
    a string or [None]. *)
Record obj_definition := {
  id_field : option string;
  url_name : string;
  has_owner : bool;
  has_source : bool;
  has_collection : bool;
  omit_resource_name_on_get : option bool;
  allowed_fields : list string;
  create_method : option string;
  update_method : option string
}.

(** What is sent to the server. The URL is the API root followed by the
    address; [data] is the dictionary that [json.dumps] serialises. The
    headers are the same for every request. *)
Inductive request :=
| HEAD (url : string)
| POST (url : string) (data : record)
| PUT (url : string) (data : record).

(** The lines that [self.log] writes, one constructor for each call in the
    module, with the values it prints. *)
Inductive logline :=
| LogSettings
| LogBlank
| LogSummary
| LogSkipUnrecognizedType (obj_type raw : string)
| LogSkipNoType (raw : string)
| LogImporting (obj_type url : string)
| LogAllowedFields (obj : record)
| LogRemovedFields (obj_not_allowed : record)
| LogOwnerExists (url : jval)
| LogSkipOwnerMissing (url : jval)
| LogRepositoryExists (url : jval)
| LogSkipRepositoryMissing (url : jval)
| LogSkipUnexpected (expression : string) (status_code : Z)
| LogSkipObjectExists (url : string)
| LogObjectExists (url : string)
| LogObjectWillBeCreated (url : string)
| LogTestMode (method : option string) (url : string) (obj : record)
| LogSkippingUpdate (method : option string) (url : string) (obj : record)
| LogRequest (method : option string) (url : string) (obj : record)
| LogStatusCode (status_code : Z)
| LogHeaders
| LogText
| LogError (e : pyexc).

Module OclFlexImporter.

Definition obj_def : gmap string obj_definition :=
  list_to_map [
    (OBJ_TYPE_ORGANIZATION,
     {| id_field := Some "id"; url_name := "orgs";
        has_owner := false; has_source := false; has_collection := false;
        omit_resource_name_on_get := None;
        allowed_fields := ["id"; "company"; "extras"; "location"; "name";
                           "public_access"; "extras"; "website"];
        create_method := Some "POST"; update_method := Some "POST" |});
    (OBJ_TYPE_SOURCE,
     {| id_field := Some "id"; url_name := "sources";
        has_owner := true; has_source := false; has_collection := false;
        omit_resource_name_on_get := None;
        allowed_fields := ["id"; "short_code"; "name"; "full_name"; "description";
                           "source_type"; "custom_validation_schema"; "public_access";
                           "default_locale"; "supported_locales"; "website"; "extras";
                           "external_id"];
        create_method := Some "POST"; update_method := Some "POST" |});
    (OBJ_TYPE_COLLECTION,
     {| id_field := Some "id"; url_name := "collections";
        has_owner := true; has_source := false; has_collection := false;
        omit_resource_name_on_get := None;
        allowed_fields := ["id"; "short_code"; "name"; "full_name"; "description";
                           "collection_type"; "custom_validation_schema"; "public_access";
                           "default_locale"; "supported_locales"; "website"; "extras";
                           "external_id"];
        create_method := Some "POST"; update_method := Some "POST" |});
    (OBJ_TYPE_CONCEPT,
     {| id_field := Some "id"; url_name := "concepts";
        has_owner := true; has_source := true; has_collection := false;
        omit_resource_name_on_get := None;
        allowed_fields := ["id"; "external_id"; "concept_class"; "datatype"; "names";
                           "descriptions"; "retired"; "extras"];
        create_method := Some "POST"; update_method := Some "POST" |});
    (OBJ_TYPE_MAPPING,
     {| id_field := Some "id"; url_name := "mappings";
        has_owner := true; has_source := true; has_collection := false;
        omit_resource_name_on_get := None;
        allowed_fields := ["id"; "map_type"; "from_concept_url"; "to_source_url";
                           "to_concept_url"; "to_concept_code"; "to_concept_name";
                           "extras"; "external_id"];
        create_method := Some "POST"; update_method := Some "POST" |});
    (OBJ_TYPE_REFERENCE,
     {| id_field := None; url_name := "references";
        has_owner := true; has_source := false; has_collection := true;
        omit_resource_name_on_get := None;
        allowed_fields := ["data"];
        create_method := Some "PUT"; update_method := None |});
    (OBJ_TYPE_SOURCE_VERSION,
     {| id_field := Some "id"; url_name := "versions";
        has_owner := true; has_source := true; has_collection := false;
        omit_resource_name_on_get := Some true;
        allowed_fields := ["id"; "external_id"; "description"; "released"];
        create_method := Some "POST"; update_method := Some "POST" |});
    (OBJ_TYPE_COLLECTION_VERSION,
     {| id_field := Some "id"; url_name := "versions";
        has_owner := true; has_source := false; has_collection := true;
        omit_resource_name_on_get := Some true;
        allowed_fields := ["id"; "external_id"; "description"; "released"];
        create_method := Some "POST"; update_method := Some "POST" |})
  ].

(** The importer object. [registry] is [self.obj_def]; [requests] is the
    trace of the requests sent so far and [log] what was logged, oldest
    first. [import_results] holds the aggregator that [process] creates at
    line 396. Before [process] runs the attribute is [None]: the model has
    no such state, it describes the importer from line 396 on. *)
Record t := mk {
  registry : gmap string obj_definition;
  api_url_root : string;
  test_mode : bool;
  do_update_if_exists : bool;
  verbosity : Z;
  limit : Z;
  skip_line_count : bool;
  import_results : OclImportResults.t;
  cache_obj_exists : gmap string bool;
  requests : list request;
  log : list logline
}.

(** The importer inside [process], once line 396 has created the
    aggregator: the settings and the empty cache that [__init__] stores, and
    a new [OclImportResults] for [total_lines] lines. *)
Definition started (api_url_root : string) (limit : Z) (test_mode : bool)
    (verbosity : Z) (do_update_if_exists : bool) (total_lines : Z) : t :=
  {| registry := obj_def; api_url_root := api_url_root; test_mode := test_mode;
     do_update_if_exists := do_update_if_exists; verbosity := verbosity;
     limit := limit; skip_line_count := false;
     import_results := OclImportResults.init total_lines;
     cache_obj_exists := ∅; requests := []; log := [] |}.

Definition set_import_results (st : t) (r : OclImportResults.t) : t :=
  {| registry := registry st; api_url_root := api_url_root st;
     test_mode := test_mode st; do_update_if_exists := do_update_if_exists st;
     verbosity := verbosity st; limit := limit st;
     skip_line_count := skip_line_count st;
     import_results := r;
     cache_obj_exists := cache_obj_exists st; requests := requests st;
     log := log st |}.

Definition set_cache_obj_exists (st : t) (c : gmap string bool) : t :=
  {| registry := registry st; api_url_root := api_url_root st;
     test_mode := test_mode st; do_update_if_exists := do_update_if_exists st;
     verbosity := verbosity st; limit := limit st;
     skip_line_count := skip_line_count st;
     import_results := import_results st;
     cache_obj_exists := c; requests := requests st;
     log := log st |}.

Definition set_requests (st : t) (rs : list request) : t :=
  {| registry := registry st; api_url_root := api_url_root st;
     test_mode := test_mode st; do_update_if_exists := do_update_if_exists st;
     verbosity := verbosity st; limit := limit st;
     skip_line_count := skip_line_count st;
     import_results := import_results st;
     cache_obj_exists := cache_obj_exists st; requests := rs;
     log := log st |}.

(** [self.log(...)] *)
Definition write_log (st : t) (l : logline) : t :=
  {| registry := registry st; api_url_root := api_url_root st;
     test_mode := test_mode st; do_update_if_exists := do_update_if_exists st;
     verbosity := verbosity st; limit := limit st;
     skip_line_count := skip_line_count st;
     import_results := import_results st;
     cache_obj_exists := cache_obj_exists st; requests := requests st;
     log := (log st ++ [l])%list |}.

(** [find_nth]: the loop runs while [start >= 0 and n > 1], so at most
    [n - 1] times. *)
Fixpoint find_nth_loop (haystack needle : string) (start : Z) (iterations : nat) : Z :=
  match iterations with
  | O => start
  | S iterations' =>
    if 0 <=? start
    then find_nth_loop haystack needle
           (str_find haystack needle (start + Z.of_nat (String.length needle)))
           iterations'
    else start
  end.

Definition find_nth (haystack needle : string) (n : Z) : Z :=
  find_nth_loop haystack needle (str_find haystack needle 0) (Z.to_nat (n - 1)).

Section Importer.

(** The world outside the program: the status code with which the server
    answers a request, given the requests it has received before, and
    [urllib.urlencode]. *)
Variable server : list request → request → Z.
Variable urlencode : record → string.

(** [requests.head], [requests.post], [requests.put]: the request joins the
    trace and the server's status code comes back. *)
Definition send (st : t) (rq : request) : t * Z :=
  (set_requests st (requests st ++ [rq])%list, server (requests st) rq).

(** [does_object_exist]. An address that is not a string cannot be
    concatenated to the API root (nor, for a list or a dictionary, looked up
    in the cache). *)
Definition does_object_exist (st : t) (obj_url : jval) (use_cache : bool)
    : t * result bool :=
  match obj_url with
  | JStr url =>
    if use_cache && bool_decide (cache_obj_exists st !! url = Some true)
    then (st, Ok true)
    else
      let '(st1, status_code) := send st (HEAD (api_url_root st ++ url)) in
      if status_code =? 200
      then (set_cache_obj_exists st1 (<[url := true]> (cache_obj_exists st1)), Ok true)
      else if status_code =? 404
      then (st1, Ok false)
      else (st1, Err (UnexpectedStatusCodeError ("GET " ++ api_url_root st ++ url)
                        status_code))
  | _ => (st, Err TypeError)
  end.

(** [does_mapping_exist] and [does_reference_exist]: the body is commented
    out in the source. *)
Definition does_mapping_exist (obj_url : string) (obj : record) : bool := false.
Definition does_reference_exist (obj_url : string) (obj : record) : bool := false.

(** *** [process_object], lines 532-631: resolution of the addresses *)

(** "Grab the ID" *)
Definition grab_id (d : obj_definition) (obj : record) : jval :=
  match id_field d with
  | Some f => default (JStr "") (obj !! f)
  | None => JStr ""
  end.

(** "Determine whether this resource has an owner, source, or collection":
    [(has_owner, has_source, has_collection)]. *)
Definition containers (obj_type : string) (d : obj_definition)
    : result (bool * bool * bool) :=
  if has_source d && has_collection d then Err (InvalidObjectDefinition obj_type)
  else if has_source d then Ok (has_owner d, true, false)
  else if has_collection d then Ok (has_owner d, false, true)
  else Ok (has_owner d, false, false).

(** [self.obj_def[k]["url_name"]] *)
Definition url_name_of (reg : gmap string obj_definition) (k : string) : result string :=
  match reg !! k with
  | Some d => Ok (url_name d)
  | None => Err KeyError
  end.

(** [url[:self.find_nth(url, '/', 3) + 1]] *)
Definition owner_of_repo_url (url : jval) : result jval :=
  match url with
  | JStr s => Ok (JStr (slice_to s (find_nth s "/" 3 + 1)))
  | _ => Err AttributeError
  end.

(** "Set owner URL": the owner address ([None] when the type has no owner)
    and the record without the fields that were popped. *)
Definition resolve_owner (reg : gmap string obj_definition) (obj_type : string)
    (has_owner has_source has_collection : bool) (obj : record)
    : result (jval * record) :=
  let obj_owner_url := JNull in
  if has_owner then
    match obj !! "owner_url" with
    | Some v => Ok (v, delete "owner_type" (delete "owner" (delete "owner_url" obj)))
    | None =>
      match obj !! "owner", obj !! "owner_type" with
      | Some obj_owner, Some obj_owner_type =>
        let obj := delete "owner" (delete "owner_type" obj) in
        if eq_str obj_owner_type OBJ_TYPE_ORGANIZATION then
          seg ← url_name_of reg OBJ_TYPE_ORGANIZATION;
          s ← str_add ("/" ++ seg ++ "/") obj_owner;
          Ok (JStr (s ++ "/"), obj)
        else if eq_str obj_owner_url OBJ_TYPE_USER then
          seg ← url_name_of reg OBJ_TYPE_USER;
          s ← str_add ("/" ++ seg ++ "/") obj_owner;
          Ok (JStr (s ++ "/"), obj)
        else Err (InvalidOwnerError obj_type)
      | _, _ =>
        if has_source && bool_decide (is_Some (obj !! "source_url"))
           && truthy (default JNull (obj !! "source_url")) then
          u ← owner_of_repo_url (default JNull (obj !! "source_url"));
          Ok (u, obj)
        else if has_collection && bool_decide (is_Some (obj !! "collection_url"))
                && truthy (default JNull (obj !! "collection_url")) then
          u ← owner_of_repo_url (default JNull (obj !! "collection_url"));
          Ok (u, obj)
        else Err (InvalidOwnerError obj_type)
      end
    end
  else Ok (obj_owner_url, obj).

(** [obj_owner_url + stem + obj.pop(name) + "/"] *)
Definition synthesize_repo_url (obj_owner_url : jval) (stem : string) (name : jval)
    : result jval :=
  s ← add_str obj_owner_url stem;
  s ← str_add s name;
  Ok (JStr (s ++ "/")).

(** "Set repository URL" *)
Definition resolve_repo (obj_type : string) (has_source has_collection : bool)
    (obj_owner_url : jval) (obj : record) : result (jval * record) :=
  if has_source then
    match obj !! "source_url" with
    | Some v => Ok (v, delete "source" (delete "source_url" obj))
    | None =>
      match obj !! "source" with
      | Some name =>
        u ← synthesize_repo_url obj_owner_url "sources/" name;
        Ok (u, delete "source" obj)
      | None => Err (InvalidRepositoryError obj_type)
      end
    end
  else if has_collection then
    match obj !! "collection_url" with
    | Some v => Ok (v, delete "collection" (delete "collection_url" obj))
    | None =>
      match obj !! "collection" with
      | Some name =>
        u ← synthesize_repo_url obj_owner_url "collections/" name;
        Ok (u, delete "collection" obj)
      | None => Err (InvalidRepositoryError obj_type)
      end
    end
  else Ok (JNull, obj).

(** "Build object URLs": [(new_obj_url, obj_url)]. Each branch starts by
    concatenating the repository or owner address to a string, which needs
    that address to be a string. *)
Definition build_object_urls (d : obj_definition)
    (has_owner has_source has_collection : bool)
    (obj_owner_url obj_repo_url obj_id : jval) : result (string * string) :=
  if has_source || has_collection then
    match obj_repo_url with
    | JStr repo =>
      let new_obj_url := repo ++ url_name d ++ "/" in
      if bool_decide (omit_resource_name_on_get d = Some true) then
        s ← str_add repo obj_id;
        Ok (new_obj_url, s ++ "/")
      else if truthy obj_id then
        s ← str_add new_obj_url obj_id;
        Ok (new_obj_url, s ++ "/")
      else Ok (new_obj_url, new_obj_url)
    | _ => Err TypeError
    end
  else if has_owner then
    match obj_owner_url with
    | JStr owner =>
      let new_obj_url := owner ++ url_name d ++ "/" in
      s ← str_add new_obj_url obj_id;
      Ok (new_obj_url, s ++ "/")
    | _ => Err TypeError
    end
  else
    let new_obj_url := "/" ++ url_name d ++ "/" in
    s ← str_add new_obj_url obj_id;
    Ok (new_obj_url, s ++ "/").

(** "Handle query parameters": the parameters and the record without
    [__cascade]. *)
Definition handle_query_params (obj_type : string) (obj : record) : record * record :=
  if String.eqb obj_type OBJ_TYPE_REFERENCE then
    match obj !! "__cascade" with
    | Some v => (<["cascade" := v]> ∅, delete "__cascade" obj)
    | None => (∅, obj)
    end
  else (∅, obj).

(** "Pull out the fields that aren't allowed": [(obj, obj_not_allowed)]. *)
Definition partition_fields (d : obj_definition) (obj : record) : record * record :=
  (filter (fun kv => kv.1 ∈ allowed_fields d) obj,
   filter (fun kv => kv.1 ∉ allowed_fields d) obj).

(** The values that lines 532-631 leave in the local variables. *)
Record resolved := {
  res_obj_id : jval;
  res_obj_owner_url : jval;
  res_obj_repo_url : jval;
  res_new_obj_url : string;
  res_obj_url : string;
  res_query_params : record;
  res_obj : record;
  res_obj_not_allowed : record;
  res_has_owner : bool;
  res_has_source : bool;
  res_has_collection : bool
}.

Definition resolve (reg : gmap string obj_definition) (obj_type : string) (obj : record)
    : result resolved :=
  match reg !! obj_type with
  | None => Err KeyError
  | Some d =>
    let obj_id := grab_id d obj in
    '(has_owner, has_source, has_collection) ← containers obj_type d;
    '(obj_owner_url, obj) ←
      resolve_owner reg obj_type has_owner has_source has_collection obj;
    '(obj_repo_url, obj) ←
      resolve_repo obj_type has_source has_collection obj_owner_url obj;
    '(new_obj_url, obj_url) ←
      build_object_urls d has_owner has_source has_collection
        obj_owner_url obj_repo_url obj_id;
    let '(query_params, obj) := handle_query_params obj_type obj in
    let '(obj, obj_not_allowed) := partition_fields d obj in
    Ok {| res_obj_id := obj_id; res_obj_owner_url := obj_owner_url;
          res_obj_repo_url := obj_repo_url; res_new_obj_url := new_obj_url;
          res_obj_url := obj_url; res_query_params := query_params;
          res_obj := obj; res_obj_not_allowed := obj_not_allowed;
          res_has_owner := has_owner; res_has_source := has_source;
          res_has_collection := has_collection |}
  end.

(** *** [update_or_create] *)

(** [request_result.raise_for_status()] *)
Definition raise_for_status (status_code : Z) : result unit :=
  if (400 <=? status_code) && (status_code <? 600)
  then Err (HTTPError status_code)
  else Ok tt.

Definition update_or_create (st : t) (obj_type : string)
    (obj_id obj_owner_url obj_repo_url : jval) (obj_url new_obj_url : string)
    (obj_already_exists : bool) (obj obj_not_allowed query_params : record)
    : t * result unit :=
  match registry st !! obj_type with
  | None => (st, Err KeyError)
  | Some d =>
    (* Determine which URL to use based on whether or not object already exists *)
    let '(method, url, action_type) :=
      if obj_already_exists
      then (update_method d, obj_url, ACTION_TYPE_UPDATE)
      else (create_method d, new_obj_url, ACTION_TYPE_NEW) in
    (* Add query parameters (if provided) *)
    let url :=
      if bool_decide (query_params = ∅) then url
      else url ++ "?" ++ urlencode query_params in
    (* Get out of here if in test mode *)
    if test_mode st then
      (write_log st (LogTestMode method (api_url_root st ++ url) obj), Ok tt)
    (* Skip updates for now *)
    else if obj_already_exists then
      (write_log st (LogSkippingUpdate method (api_url_root st ++ url) obj), Ok tt)
    else
      (* Create or update the object *)
      let st := write_log st (LogRequest method (api_url_root st ++ url) obj) in
      let sent :=
        match method with
        | Some m =>
          if String.eqb m "POST" then Some (m, send st (POST (api_url_root st ++ url) obj))
          else if String.eqb m "PUT" then Some (m, send st (PUT (api_url_root st ++ url) obj))
          else None
        | None => None
        end in
      match sent with
      | None => (st, Err UnboundLocalError)
      | Some (m, (st, status_code)) =>
        let st := write_log st (LogStatusCode status_code) in
        let st := write_log st LogHeaders in
        let st := write_log st LogText in
        let '(r, added) :=
          OclImportResults.add (import_results st) obj_url action_type obj_type
            obj_repo_url m obj_owner_url (Some status_code) in
        let st := set_import_results st r in
        match added with
        | Err e => (st, Err e)
        | Ok _ => (st, raise_for_status status_code)
        end
      end
  end.

(** *** [process_object], lines 633-702: probes and execution *)

(** The [return] statements of [process_object] before the call of
    [update_or_create]. Python returns [None] at each of them; the model says
    which one was taken. *)
Inductive exit_point :=
| ExitOwnerMissing
| ExitOwnerError
| ExitRepositoryMissing
| ExitRepositoryError
| ExitObjectError
| ExitObjectExists.

(** How a call of [process_object] that raised nothing ended: at one of the
    early [return]s, or after [update_or_create]. *)
Inductive completion :=
| Returned (at_point : exit_point)
| Finished.

(** "Display some debug info" *)
Definition log_debug_info (st : t) (obj_type : string) (r : resolved) : t :=
  let st :=
    if 1 <=? verbosity st
    then write_log st (LogImporting obj_type (api_url_root st ++ res_obj_url r))
    else st in
  if 2 <=? verbosity st
  then write_log (write_log st (LogAllowedFields (res_obj r)))
         (LogRemovedFields (res_obj_not_allowed r))
  else st.

(** "Check if owner exists": [Some] exit point when the method returns. *)
Definition check_owner (st : t) (r : resolved) : t * result (option exit_point) :=
  if res_has_owner r && truthy (res_obj_owner_url r) then
    match does_object_exist st (res_obj_owner_url r) true with
    | (st, Ok true) =>
      (write_log st (LogOwnerExists (res_obj_owner_url r)), Ok None)
    | (st, Ok false) =>
      let st := write_log st (LogSkipOwnerMissing (res_obj_owner_url r)) in
      if negb (test_mode st) then (st, Ok (Some ExitOwnerMissing)) else (st, Ok None)
    | (st, Err (UnexpectedStatusCodeError expression code)) =>
      (write_log st (LogSkipUnexpected expression code), Ok (Some ExitOwnerError))
    | (st, Err e) => (st, Err e)
    end
  else (st, Ok None).

(** "Check if repository exists" *)
Definition check_repository (st : t) (r : resolved) : t * result (option exit_point) :=
  if (res_has_source r || res_has_collection r) && truthy (res_obj_repo_url r) then
    match does_object_exist st (res_obj_repo_url r) true with
    | (st, Ok true) =>
      (write_log st (LogRepositoryExists (res_obj_repo_url r)), Ok None)
    | (st, Ok false) =>
      let st := write_log st (LogSkipRepositoryMissing (res_obj_repo_url r)) in
      if negb (test_mode st) then (st, Ok (Some ExitRepositoryMissing)) else (st, Ok None)
    | (st, Err (UnexpectedStatusCodeError expression code)) =>
      (write_log st (LogSkipUnexpected expression code), Ok (Some ExitRepositoryError))
    | (st, Err e) => (st, Err e)
    end
  else (st, Ok None).

(** "Check if object already exists": the exit point when the method
    returns, [obj_already_exists] otherwise. *)
Definition check_object (st : t) (obj_type : string) (r : resolved)
    : t * result (exit_point + bool) :=
  let probed :=
    if String.eqb obj_type "Reference"
    then (st, Ok (does_reference_exist (res_obj_url r) (res_obj r)))
    else if String.eqb obj_type "Mapping"
    then (st, Ok (does_mapping_exist (res_obj_url r) (res_obj r)))
    else does_object_exist st (JStr (res_obj_url r)) true in
  match probed with
  | (st, Err (UnexpectedStatusCodeError expression code)) =>
    (write_log st (LogSkipUnexpected expression code), Ok (inl ExitObjectError))
  | (st, Err e) => (st, Err e)
  | (st, Ok obj_already_exists) =>
    if obj_already_exists && negb (do_update_if_exists st) then
      let st := write_log st (LogSkipObjectExists (api_url_root st ++ res_obj_url r)) in
      if negb (test_mode st) then (st, Ok (inl ExitObjectExists))
      else (st, Ok (inr obj_already_exists))
    else if obj_already_exists then
      (write_log st (LogObjectExists (api_url_root st ++ res_obj_url r)),
       Ok (inr obj_already_exists))
    else
      (write_log st (LogObjectWillBeCreated (api_url_root st ++ res_obj_url r)),
       Ok (inr obj_already_exists))
  end.

(** "Create/update the object": the [try] around [update_or_create]. *)
Definition create_or_update (st : t) (obj_type : string) (r : resolved)
    (obj_already_exists : bool) : t * result completion :=
  match update_or_create st obj_type (res_obj_id r) (res_obj_owner_url r)
          (res_obj_repo_url r) (res_obj_url r) (res_new_obj_url r)
          obj_already_exists (res_obj r) (res_obj_not_allowed r)
          (res_query_params r) with
  | (st, Ok _) => (st, Ok Finished)
  | (st, Err (HTTPError code)) => (write_log st (LogError (HTTPError code)), Ok Finished)
  | (st, Err e) => (st, Err e)
  end.

Definition process_object (st : t) (obj_type : string) (obj : record)
    : t * result completion :=
  match resolve (registry st) obj_type obj with
  | Err e => (st, Err e)
  | Ok r =>
    let st := log_debug_info st obj_type r in
    match check_owner st r with
    | (st, Err e) => (st, Err e)
    | (st, Ok (Some x)) => (st, Ok (Returned x))
    | (st, Ok None) =>
      match check_repository st r with
      | (st, Err e) => (st, Err e)
      | (st, Ok (Some x)) => (st, Ok (Returned x))
      | (st, Ok None) =>
        match check_object st obj_type r with
        | (st, Err e) => (st, Err e)
        | (st, Ok (inl x)) => (st, Ok (Returned x))
        | (st, Ok (inr obj_already_exists)) =>
          create_or_update st obj_type r obj_already_exists
        end
      end
    end
  end.

(** *** [process]: the driver *)

(** A line of the import file: its text and the dictionary that
    [json.loads] makes of it. *)
Record line := {
  json_line_raw : string;
  json_line_obj : record
}.

(** The local counters of [process]. *)
Record counters := {
  count : Z;
  num_processed : Z;
  num_skipped : Z
}.

(** The body of the loop, after the test of the limit. *)
Definition process_line (st : t) (c : counters) (ln : line)
    : t * counters * result unit :=
  let c := {| count := count c + 1; num_processed := num_processed c;
              num_skipped := num_skipped c |} in
  match json_line_obj ln !! "type" with
  | Some obj_type =>
    let obj := delete "type" (json_line_obj ln) in
    match obj_type with
    | JStr ty =>
      if bool_decide (is_Some (registry st !! ty)) then
        let st := write_log st LogBlank in
        match process_object st ty obj with
        | (st, Err e) => (st, c, Err e)
        | (st, Ok _) =>
          (write_log st LogSummary,
           {| count := count c; num_processed := num_processed c + 1;
              num_skipped := num_skipped c |}, Ok tt)
        end
      else
        match OclImportResults.add_skip (import_results st) obj_type (json_line_raw ln) with
        | (r, Err e) => (set_import_results st r, c, Err e)
        | (r, Ok _) =>
          (write_log (set_import_results st r)
             (LogSkipUnrecognizedType ty (json_line_raw ln)),
           {| count := count c; num_processed := num_processed c;
              num_skipped := num_skipped c + 1 |}, Ok tt)
        end
    | _ =>
      match OclImportResults.add_skip (import_results st) obj_type (json_line_raw ln) with
      | (r, Err e) => (set_import_results st r, c, Err e)
      | (r, Ok _) =>
        (* the message concatenates [obj_type] to a string *)
        (set_import_results st r, c, Err TypeError)
      end
    end
  | None =>
    match OclImportResults.add_skip (import_results st) (JStr "") (json_line_raw ln) with
    | (r, Err e) => (set_import_results st r, c, Err e)
    | (r, Ok _) =>
      (write_log (set_import_results st r) (LogSkipNoType (json_line_raw ln)),
       {| count := count c; num_processed := num_processed c;
          num_skipped := num_skipped c + 1 |}, Ok tt)
    end
  end.

(** "Loop through each JSON object in the file" *)
Fixpoint process_lines (st : t) (c : counters) (json_file : list line)
    : t * counters * result unit :=
  match json_file with
  | [] => (st, c, Ok tt)
  | ln :: rest =>
    if (0 <? limit st) && (limit st <=? count c) then (st, c, Ok tt)
    else
      match process_line st c ln with
      | (st, c, Ok _) => process_lines st c rest
      | (st, c, Err e) => (st, c, Err e)
      end
  end.

(** [process]: returns [count]. *)
Definition process (st : t) (json_file : list line) : t * result Z :=
  let st := if negb (verbosity st =? 0) then write_log st LogSettings else st in
  let num_lines := if skip_line_count st then 0 else Z.of_nat (List.length json_file) in
  let st := set_import_results st (OclImportResults.init num_lines) in
  match process_lines st {| count := 0; num_processed := 0; num_skipped := 0 |}
          json_file with
  | (st, c, Ok _) => (st, Ok (count c))
  | (st, _, Err e) => (st, Err e)
  end.

End Importer.

End OclFlexImporter.

(** ** class DatimBase ([datimbase.py]) *)

Module DatimBase.

Definition RESOURCE_TYPE_USER := "User".
Definition RESOURCE_TYPE_ORGANIZATION := "Organization".
Definition RESOURCE_TYPE_SOURCE := "Source".
Definition RESOURCE_TYPE_COLLECTION := "Collection".
Definition OWNER_STEM_USERS := "users".
Definition OWNER_STEM_ORGS := "orgs".
Definition REPO_STEM_SOURCES := "sources".
Definition REPO_STEM_COLLECTIONS := "collections".

(** [s.replace(old, new)] for patterns of one character. *)
Fixpoint replace_char (old new : ascii) (s : string) : string :=
  match s with
  | EmptyString => EmptyString
  | String a s' => String (if Ascii.eqb a old then new else a) (replace_char old new s')
  end.

(** [_convert_endpoint_to_filename_fmt]: [filename[0]] and [filename[-1]]
    raise [IndexError] on an empty string. *)
Definition _convert_endpoint_to_filename_fmt (endpoint : string) : result string :=
  let filename := replace_char "/" "-" endpoint in
  match filename with
  | EmptyString => Err IndexError
  | String first rest =>
    let filename := if Ascii.eqb first "-" then rest else filename in
    match last_char filename with
    | None => Err IndexError
    | Some last =>
      Ok (if Ascii.eqb last "-" then slice_to filename (-1) else filename)
    end
  end.

Definition endpoint2filename_ocl_export_tar (endpoint : string) : result string :=
  f ← _convert_endpoint_to_filename_fmt endpoint; Ok ("ocl-" ++ f ++ ".zip").

Definition endpoint2filename_ocl_export_json (endpoint : string) : result string :=
  f ← _convert_endpoint_to_filename_fmt endpoint; Ok ("ocl-" ++ f ++ "-raw.json").

Definition endpoint2filename_ocl_export_intermediate_json (endpoint : string)
    : result string :=
  f ← _convert_endpoint_to_filename_fmt endpoint; Ok ("ocl-" ++ f ++ "-intermediate.json").

Definition endpoint2filename_ocl_export_cleaned (endpoint : string) : result string :=
  f ← _convert_endpoint_to_filename_fmt endpoint; Ok ("ocl-" ++ f ++ "-cleaned.json").

(** [repo_type_to_stem] and [owner_type_to_stem]: the stem, or the default
    given ([None] unless the caller passes one). *)
Definition repo_type_to_stem (repo_type : string) (default_repo_stem : option string)
    : option string :=
  if String.eqb repo_type RESOURCE_TYPE_SOURCE then Some REPO_STEM_SOURCES
  else if String.eqb repo_type RESOURCE_TYPE_COLLECTION then Some REPO_STEM_COLLECTIONS
  else default_repo_stem.

Definition owner_type_to_stem (owner_type : string) (default_owner_stem : option string)
    : option string :=
  if String.eqb owner_type RESOURCE_TYPE_USER then Some OWNER_STEM_USERS
  else if String.eqb owner_type RESOURCE_TYPE_ORGANIZATION then Some OWNER_STEM_ORGS
  else default_owner_stem.

End DatimBase.

Import OclFlexImporter.

(** * Notions used in the properties *)



(** The aggregator holds no list where [add] expects the dictionary of an
    action type: every slot was made by [add]. *)
Definition only_outcomes (r : OclImportResults.t) : Prop :=
  ∀ root by_action k,
    OclImportResults._results r !! root = Some by_action →
    by_action !! k ≠ Some OclImportResults.SlotList.




(** The exceptions that the handling of one record of type [obj_type] can
    let through, besides the configuration error: an error of the record
    (owner or repository information missing) or a built-in exception raised
    on a value of an unexpected type or on a missing key. *)
Definition record_error (obj_type : string) (e : pyexc) : Prop :=
  e = InvalidOwnerError obj_type ∨ e = InvalidRepositoryError obj_type
  ∨ e = TypeError ∨ e = KeyError ∨ e = AttributeError ∨ e = IndexError
  ∨ e = UnboundLocalError.

(** * Statements of the specification that the code decides otherwise *)

Section Statements.

(** A record with an empty owner address derived from a short [source_url]
    gets a repository address synthesized from that owner address. *)
Definition empty_owner_reaches_synthesized_repo_url : Prop :=
  ∀ (obj_type : string) (obj : record) (s : string),
    obj !! "owner_url" = None → obj !! "owner" = None → obj !! "owner_type" = None →
    obj !! "source_url" = Some (JStr s) → s ≠ "" →
    (count_char "/" s < 3)%nat →
    resolve_owner obj_def obj_type true true false obj = Ok (JStr "", obj)
    ∧ ∃ name obj',
        resolve_repo obj_type true false (JStr "") obj
        = Ok (JStr ("" ++ "sources/" ++ name ++ "/"), obj').

(** A record abandoned at one of the early [return]s of [process_object] is
    still counted by the aggregator, as processed or as skipped. *)
Definition abandoned_record_is_counted : Prop :=
  ∀ (server : list request → request → Z) (urlencode : record → string)
    (st st' : OclFlexImporter.t) (obj_type : string) (obj : record) (x : exit_point),
    process_object server urlencode st obj_type obj = (st', Ok (Returned x)) →
    OclImportResults.count (import_results st')
      = OclImportResults.count (import_results st) + 1
    ∨ OclImportResults.num_skipped (import_results st')
      = OclImportResults.num_skipped (import_results st) + 1.

(** An object that already exists, of a type with an update verb, is updated
    when the run is not a test run and updates are enabled: a request with
    the update verb goes to the object address and an outcome of action
    type 'update' is recorded. *)
Definition existing_object_is_updated : Prop :=
  ∀ (server : list request → request → Z) (urlencode : record → string)
    (st : OclFlexImporter.t) (obj_type : string) (d : obj_definition) (m : string)
    (obj_id obj_owner_url obj_repo_url : jval) (obj_url new_obj_url : string)
    (obj obj_not_allowed : record),
    registry st !! obj_type = Some d → update_method d = Some m →
    test_mode st = false → do_update_if_exists st = true →
    let st' := (update_or_create server urlencode st obj_type obj_id obj_owner_url
                  obj_repo_url obj_url new_obj_url true obj obj_not_allowed ∅).1 in
    (∃ rq, requests st' = (requests st ++ [rq])%list
           ∧ (rq = POST (api_url_root st ++ obj_url) obj
              ∨ rq = PUT (api_url_root st ++ obj_url) obj))
    ∧ (∃ root status,
         (m ++ " " ++ obj_url)
         ∈ OclImportResults.outcomes (import_results st') root
             (KStr ACTION_TYPE_UPDATE) status).

(** A registry in which some type declares both [has_source] and
    [has_collection] makes the run fail with the configuration error before
    any record is read. *)
Definition contradictory_definition_stops_run_at_start : Prop :=
  ∀ (server : list request → request → Z) (urlencode : record → string)
    (st : OclFlexImporter.t) (json_file : list line),
    (∃ ty d, registry st !! ty = Some d
             ∧ has_source d = true ∧ has_collection d = true) →
    ∃ st' ty, process server urlencode st json_file
              = (st', Err (InvalidObjectDefinition ty))
              ∧ requests st' = requests st.

(** Two states of the importer with the same settings: what [__init__]
    stores and the run only reads. *)
Definition same_settings (st st' : OclFlexImporter.t) : Prop :=
  registry st' = registry st
  ∧ api_url_root st' = api_url_root st
  ∧ test_mode st' = test_mode st
  ∧ do_update_if_exists st' = do_update_if_exists st
  ∧ verbosity st' = verbosity st
  ∧ limit st' = limit st
  ∧ skip_line_count st' = skip_line_count st.

End Statements.

(** * Example inputs *)

(** The concept record of the scenario of the specification, after the
    driver has popped its [type]. *)
Definition example_concept : record :=
  list_to_map [("id", JStr "C1"); ("source", JStr "S1"); ("owner", JStr "Org1");
               ("owner_type", JStr "Organization"); ("concept_class", JStr "X");
               ("datatype", JStr "None"); ("extras", JObj [("foo", JNum 1)])].


(** What is left of it for the payload. *)
Definition example_concept_payload : record :=
  list_to_map [("id", JStr "C1"); ("concept_class", JStr "X");
               ("datatype", JStr "None"); ("extras", JObj [("foo", JNum 1)])].

Definition example_concept_resolved : resolved :=
  {| res_obj_id := JStr "C1";
     res_obj_owner_url := JStr "/orgs/Org1/";
     res_obj_repo_url := JStr "/orgs/Org1/sources/S1/";
     res_new_obj_url := "/orgs/Org1/sources/S1/concepts/";
     res_obj_url := "/orgs/Org1/sources/S1/concepts/C1/";
     res_query_params := ∅;
     res_obj := example_concept_payload;
     res_obj_not_allowed := ∅;
     res_has_owner := true; res_has_source := true; res_has_collection := false |}.

(** A server on which the organization Org1 and its source S1 exist and
    nothing else, and which refuses every POST with status 409. *)
Definition example_server (received : list request) (rq : request) : Z :=
  match rq with
  | HEAD url =>
    if bool_decide (url ∈ ["http://api/orgs/Org1/"; "http://api/orgs/Org1/sources/S1/"])
    then 200 else 404
  | POST _ _ => 409
  | PUT _ _ => 201
  end.

(** An importer inside [process], outside test mode, for a file of one
    line. *)
Definition example_importer : OclFlexImporter.t :=
  OclFlexImporter.started "http://api" 0 false 1 false 1.

(** The same importer with a registry in which one more type, that no
    record needs to have, declares both a source and a collection. *)
Definition example_contradictory_importer : OclFlexImporter.t :=
  {| registry :=
       <["Bad" := {| id_field := Some "id"; url_name := "bad";
                     has_owner := true; has_source := true; has_collection := true;
                     omit_resource_name_on_get := None;
                     allowed_fields := ["id"];
                     create_method := Some "POST"; update_method := None |}]> obj_def;
     api_url_root := "http://api"; test_mode := false;
     do_update_if_exists := false; verbosity := 1; limit := 0;
     skip_line_count := false;
     import_results := OclImportResults.init 0;
     cache_obj_exists := ∅; requests := []; log := [] |}.


(** A file with one line, an organization that the example server does not
    know. *)
Definition example_organization_file : list line :=
  [{| json_line_raw := "{type: Organization, id: Org2}";
      json_line_obj := list_to_map [("type", JStr "Organization"); ("id", JStr "Org2")] |}].

(** * Properties *)

(** ** The aggregator *)

Section Aggregator.

Import OclImportResults.

Lemma setdefault_lookup {K : Type} `{Countable K} {V : Type} (k : K) (v : V)
    (d : gmap K V) :
  setdefault k v d !! k = Some (default v (d !! k)).
Proof.
  unfold setdefault. destruct (d !! k) eqn:E; simpl.
  - exact E.
  - apply lookup_insert_eq.
Qed.

Lemma setdefault_lookup_ne {K : Type} `{Countable K} {V : Type} (k k' : K) (v : V)
    (d : gmap K V) :
  k ≠ k' → setdefault k v d !! k' = d !! k'.
Proof.
  intros Hne. unfold setdefault. destruct (d !! k); [done|].
  by apply lookup_insert_ne.
Qed.

(** Whenever the skip bucket of the type is not already a dictionary (it is
    absent, or the list that an earlier call left there), [add_skip] raises
    a [TypeError] at line 141 and counts nothing. *)
Lemma add_skip_raises (r : t) (obj_type : jval) (text : string) (key : pykey) :
  to_key (if truthy obj_type then obj_type else JStr NO_OBJECT_TYPE_KEY) = Ok key →
  (∀ skipped d, _results r !! KStr SKIP_KEY = Some skipped →
                skipped !! key ≠ Some (SlotDict d)) →
  (add_skip r obj_type text).2 = Err TypeError
  ∧ count (add_skip r obj_type text).1 = count r
  ∧ num_skipped (add_skip r obj_type text).1 = num_skipped r.
Proof.
  intros Hkey Hslot. unfold add_skip. rewrite Hkey.
  rewrite !setdefault_lookup. simpl.
  destruct (_results r !! KStr SKIP_KEY) as [skipped|] eqn:E; simpl.
  - destruct (skipped !! key) as [[d|]|] eqn:E'; simpl; try done.
    by destruct (Hslot skipped d).
  - rewrite lookup_empty. done.
Qed.

(** C1. On an aggregator as [__init__] makes it, [add_skip] does not
    complete, whatever the object type and the text: it raises [TypeError]
    (line 141 indexes the list of line 139 by the string [SKIP_KEY]), no
    text is recorded in the skip bucket, and neither [num_skipped] nor
    [count] is incremented. *)
Theorem add_skip_init_raises (total_lines : Z) (obj_type : jval) (text : string) :
  (add_skip (init total_lines) obj_type text).2 = Err TypeError
  ∧ (∀ key, skipped_texts (add_skip (init total_lines) obj_type text).1 key = [])
  ∧ num_skipped (add_skip (init total_lines) obj_type text).1 = 0
  ∧ count (add_skip (init total_lines) obj_type text).1 = 0.
Proof.
  assert (Hroot : setdefault (KStr SKIP_KEY) (∅ : gmap pykey slot) ∅ !! KStr SKIP_KEY
                  = Some ∅).
  { by rewrite setdefault_lookup, lookup_empty. }
  unfold add_skip, skipped_texts, init, set_results.
  destruct (to_key (if truthy obj_type then obj_type else JStr NO_OBJECT_TYPE_KEY))
    as [key|e] eqn:Hkey; cbn [_results count num_skipped fst snd].
  - rewrite Hroot. cbn [from_option]. unfold id.
    rewrite setdefault_lookup, lookup_empty.
    cbn [from_option fst snd _results count num_skipped].
    rewrite lookup_insert_eq. repeat split.
    intros key'. unfold setdefault at 1. rewrite lookup_empty.
    destruct (decide (key = key')) as [->|Hne].
    + by rewrite lookup_insert_eq.
    + by rewrite lookup_insert_ne, lookup_empty.
  - rewrite Hroot. repeat split.
    destruct obj_type as [|b|n|s|l|l]; simpl in Hkey;
      try destruct b; try destruct (negb _); try destruct l;
      simpl in Hkey; try discriminate; congruence.
Qed.

End Aggregator.

(** ** Strings *)

Section Strings.

Lemma append_cons (x : ascii) (a b : string) : String x a ++ b = String x (a ++ b).
Proof. reflexivity. Qed.

Lemma append_assoc (a b c : string) : (a ++ b) ++ c = a ++ b ++ c.
Proof.
  induction a as [|x a IH]; [done|].
  by rewrite !append_cons, IH.
Qed.

Lemma last_char_append (s : string) (c : ascii) :
  last_char (s ++ String c "") = Some c.
Proof.
  induction s as [|a s IH]; [done|].
  rewrite append_cons. simpl.
  destruct (s ++ String c "") eqn:E; [|done].
  by destruct s.
Qed.

Lemma last_char_append2 (a b : string) (c : ascii) :
  last_char (a ++ b ++ String c "") = Some c.
Proof. rewrite <- append_assoc. apply last_char_append. Qed.

Lemma skip_skip (a b : nat) (s : string) : skip a (skip b s) = skip (a + b) s.
Proof.
  revert s. induction b as [|b IH]; intros s.
  - by rewrite Nat.add_0_r.
  - rewrite Nat.add_succ_r. destruct s; simpl.
    + by destruct a.
    + apply IH.
Qed.

Lemma skip_length (n : nat) (s : string) :
  (n ≤ String.length s)%nat → String.length (skip n s) = (String.length s - n)%nat.
Proof.
  revert s. induction n as [|n IH]; intros s Hn; simpl.
  - lia.
  - destruct s; simpl in *; [lia|]. apply IH. lia.
Qed.

Lemma substring_0_0 (s : string) : substring 0 0 s = "".
Proof. by destruct s. Qed.

(** Searching for a one-character needle: no occurrence means no result;
    a result is a position of the string, and what follows it holds one
    occurrence less. *)
Lemma find_from_char (c : ascii) (s : string) (pos : nat) :
  match find_from (String c "") s pos with
  | None => count_char c s = 0%nat
  | Some i =>
    (pos ≤ i < pos + String.length s)%nat
    ∧ S (count_char c (skip (S (i - pos)) s)) = count_char c s
  end.
Proof.
  revert pos. induction s as [|a s IH]; intros pos; simpl; [done|].
  destruct (ascii_dec c a) as [->|Hne].
  - assert (prefix "" s = true) as -> by by destruct s.
    rewrite Nat.sub_diag, Ascii.eqb_refl. simpl. split; [lia|done].
  - specialize (IH (S pos)).
    assert (Ascii.eqb a c = false) as -> by (apply Ascii.eqb_neq; congruence).
    destruct (find_from (String c "") s (S pos)) as [i|]; simpl; [|done].
    destruct IH as [Hi Hc]. split; [lia|].
    replace (i - pos)%nat with (S (i - S pos)) by lia. exact Hc.
Qed.

Lemma find_nth_loop_negative (haystack needle : string) (start : Z) (n : nat) :
  start < 0 → find_nth_loop haystack needle start n = start.
Proof.
  intros Hneg. destruct n; simpl; [done|].
  destruct (0 <=? start) eqn:E; [lia|done].
Qed.

(** [str_find] from a position inside the string, for a one-character
    needle. *)
Lemma str_find_char (c : ascii) (s : string) (start : nat) :
  (start ≤ String.length s)%nat →
  match find_from (String c "") (skip start s) start with
  | None => str_find s (String c "") (Z.of_nat start) = -1
  | Some i => str_find s (String c "") (Z.of_nat start) = Z.of_nat i
  end.
Proof.
  intros Hle. unfold str_find.
  destruct (Z.of_nat start <? 0) eqn:E1; [lia|].
  destruct (Z.of_nat (String.length s) <? Z.of_nat start) eqn:E2; [lia|].
  rewrite Nat2Z.id. by destruct (find_from _ _ _).
Qed.

(** Once fewer occurrences remain after [start] than the loop has
    iterations left, [find_nth] ends on [-1]. *)
Lemma find_nth_loop_exhausted (c : ascii) (s : string) (n start : nat) :
  (start < String.length s)%nat →
  (count_char c (skip (S start) s) < n)%nat →
  find_nth_loop s (String c "") (Z.of_nat start) n = -1.
Proof.
  revert start. induction n as [|n IH]; intros start Hlt Hcount; [lia|].
  cbn [find_nth_loop]. destruct (0 <=? Z.of_nat start) eqn:E; [|lia].
  change (Z.of_nat (String.length (String c ""))) with 1.
  replace (Z.of_nat start + 1) with (Z.of_nat (S start)) by lia.
  pose proof (str_find_char c s (S start) ltac:(lia)) as Hfind.
  pose proof (find_from_char c (skip (S start) s) (S start)) as Hpos.
  destruct (find_from (String c "") (skip (S start) s) (S start)) as [i|].
  - rewrite Hfind. destruct Hpos as [Hi Hc].
    rewrite skip_length in Hi by lia.
    rewrite skip_skip in Hc.
    replace (S (i - S start) + S start)%nat with (S i) in Hc by lia.
    apply IH; lia.
  - rewrite Hfind. by apply find_nth_loop_negative.
Qed.

Lemma find_nth_too_few (c : ascii) (s : string) (n : Z) :
  1 ≤ n → (Z.of_nat (count_char c s) < n) →
  find_nth s (String c "") n = -1.
Proof.
  intros Hn Hcount. unfold find_nth.
  pose proof (str_find_char c s 0 ltac:(lia)) as Hfind.
  pose proof (find_from_char c s 0) as Hpos.
  change (skip 0 s) with s in Hfind. change (Z.of_nat 0) with 0 in Hfind.
  destruct (find_from (String c "") s 0) as [i|].
  - rewrite Hfind. destruct Hpos as [Hi Hc].
    rewrite Nat.sub_0_r in Hc.
    apply find_nth_loop_exhausted; lia.
  - rewrite Hfind. by apply find_nth_loop_negative.
Qed.

End Strings.

(** ** The resolver *)

Section Resolver.

Lemma bind_Ok {A B : Type} (k : A → result B) (a : A) : (Ok a ≫= k) = k a.
Proof. reflexivity. Qed.

Lemma bind_Err {A B : Type} (k : A → result B) (e : pyexc) : (Err e ≫= k) = Err e.
Proof. reflexivity. Qed.

Lemma bind_inv {A B : Type} (k : A → result B) (r : result A) (b : B) :
  (r ≫= k) = Ok b → ∃ a, r = Ok a ∧ k a = Ok b.
Proof. destruct r as [a|e]; [eauto|discriminate]. Qed.

Lemma str_add_inv (s : string) (v : jval) (u : string) :
  str_add s v = Ok u → ∃ t, v = JStr t ∧ u = s ++ t.
Proof. destruct v; simpl; try discriminate. intros [= <-]. eauto. Qed.

(** C4. For a record without [owner_url] that carries [owner] and
    [owner_type], the owner kind 'Organization' gives the owner address
    "/orgs/<owner>/", and every other owner kind raises the invalid-owner
    error. The kind 'User' is among the others: line 564 compares
    [obj_owner_url], which is still [None], instead of [obj_owner_type], so
    the branch that would build "/users/<owner>/" is never taken. *)
Theorem resolve_owner_by_kind (obj_type : string) (has_source has_collection : bool)
    (obj : record) (owner : string) (kind : jval) :
  obj !! "owner_url" = None →
  obj !! "owner" = Some (JStr owner) →
  obj !! "owner_type" = Some kind →
  resolve_owner obj_def obj_type true has_source has_collection obj =
    if eq_str kind "Organization"
    then Ok (JStr ("/orgs/" ++ owner ++ "/"), delete "owner" (delete "owner_type" obj))
    else Err (InvalidOwnerError obj_type).
Proof.
  intros Hurl Howner Hkind. unfold resolve_owner.
  rewrite Hurl, Howner, Hkind.
  change OBJ_TYPE_ORGANIZATION with "Organization".
  destruct (eq_str kind "Organization"); [|reflexivity].
  assert (url_name_of obj_def "Organization" = Ok "orgs") as ->
    by (vm_compute; reflexivity).
  rewrite bind_Ok. cbn [str_add]. rewrite bind_Ok.
  change ("/" ++ "orgs" ++ "/") with "/orgs/".
  by rewrite append_assoc.
Qed.

Lemma resolve_owner_by_kind_witness :
  resolve_owner obj_def "Source" true false false
    (list_to_map [("id", JStr "S1"); ("owner", JStr "bob"); ("owner_type", JStr "User")])
  = Err (InvalidOwnerError "Source").
Proof.
  exact (resolve_owner_by_kind "Source" false false
           (list_to_map [("id", JStr "S1"); ("owner", JStr "bob");
                         ("owner_type", JStr "User")])
           "bob" (JStr "User") eq_refl eq_refl eq_refl).
Defined.

Lemma build_object_urls_slash (d : obj_definition)
    (has_owner has_source has_collection : bool)
    (obj_owner_url obj_repo_url obj_id : jval) (new_obj_url obj_url : string) :
  build_object_urls d has_owner has_source has_collection
    obj_owner_url obj_repo_url obj_id = Ok (new_obj_url, obj_url) →
  last_char obj_url = Some "/"%char.
Proof.
  unfold build_object_urls. intros Hb.
  repeat match type of Hb with
  | (if ?c then _ else _) = _ => destruct c
  | match ?v with JNull => _ | _ => _ end = _ => destruct v; try discriminate
  | (_ ≫= _) = Ok _ => apply bind_inv in Hb as (? & _ & Hb)
  end;
  injection Hb as _ <-;
  first [apply last_char_append | apply last_char_append2].
Qed.

(** C9. Whenever the resolution of a record succeeds, the object address
    ends with the separator "/", whichever branch built it: a version-like
    type, a type with an id, a type without one, a type with only an owner or
    a type without owner. *)
Theorem resolved_obj_url_ends_with_slash (reg : gmap string obj_definition)
    (obj_type : string) (obj : record) (r : resolved) :
  resolve reg obj_type obj = Ok r →
  last_char (res_obj_url r) = Some "/"%char.
Proof.
  unfold resolve. destruct (reg !! obj_type) as [d|]; [|discriminate].
  intros H.
  apply bind_inv in H as ([[has_owner has_source] has_collection] & _ & H).
  apply bind_inv in H as ([obj_owner_url obj1] & _ & H).
  apply bind_inv in H as ([obj_repo_url obj2] & _ & H).
  apply bind_inv in H as ([new_obj_url obj_url] & Hurls & H).
  destruct (handle_query_params obj_type obj2) as [query_params obj3].
  destruct (partition_fields d obj3) as [obj4 obj_not_allowed].
  injection H as <-. simpl.
  eapply build_object_urls_slash, Hurls.
Qed.

Lemma example_concept_resolves :
  resolve obj_def "Concept" example_concept = Ok example_concept_resolved.
Proof. vm_compute. reflexivity. Qed.

Lemma resolved_obj_url_ends_with_slash_witness :
  resolve obj_def "Concept" example_concept = Ok example_concept_resolved
  ∧ last_char (res_obj_url example_concept_resolved) = Some "/"%char.
Proof.
  split; [exact example_concept_resolves|].
  exact (resolved_obj_url_ends_with_slash obj_def "Concept" example_concept
           example_concept_resolved example_concept_resolves).
Defined.

End Resolver.

Section ShortSourceUrl.

(** C10 as stated fails: the repository address of such a record is its
    [source_url], here "ab", not an address synthesized from the empty owner
    address. *)
Lemma empty_owner_reaches_synthesized_repo_url_fails :
  ¬ empty_owner_reaches_synthesized_repo_url.
Proof.
  intros H.
  destruct (H "Concept" (list_to_map [("id", JStr "C1"); ("source_url", JStr "ab")]) "ab")
    as (_ & name & obj' & Hrepo); try (vm_compute; reflexivity).
  - discriminate.
  - vm_compute; lia.
  - vm_compute in Hrepo. discriminate.
Qed.

(** C10, amended. For a record of a type with an owner and a source that
    has no [owner_url], [owner] or [owner_type] but a non-empty [source_url]
    with fewer than three "/", no invalid-owner error is raised: [find_nth]
    returns -1, the slice ends at index 0 and the owner address is the empty
    string. The repository address is the [source_url] itself, taken as it
    is; the owner address does not enter it. *)
Theorem short_source_url_gives_empty_owner (reg : gmap string obj_definition)
    (obj_type : string) (d : obj_definition) (obj : record) (s : string) :
  has_owner d = true → has_source d = true → has_collection d = false →
  obj !! "owner_url" = None → obj !! "owner" = None → obj !! "owner_type" = None →
  obj !! "source_url" = Some (JStr s) → s ≠ "" →
  (count_char "/" s < 3)%nat →
  containers obj_type d = Ok (true, true, false)
  ∧ find_nth s "/" 3 = -1
  ∧ slice_to s (find_nth s "/" 3 + 1) = ""
  ∧ resolve_owner reg obj_type true true false obj = Ok (JStr "", obj)
  ∧ resolve_repo obj_type true false (JStr "") obj
    = Ok (JStr s, delete "source" (delete "source_url" obj)).
Proof.
  intros Ho Hs Hc Hurl Howner Hkind Hsrc Hne Hcount.
  assert (Hfind : find_nth s "/" 3 = -1) by (apply find_nth_too_few; lia).
  assert (Hslice : slice_to s (find_nth s "/" 3 + 1) = "").
  { rewrite Hfind. unfold slice_to. simpl. apply substring_0_0. }
  repeat split; try done.
  - unfold containers. by rewrite Ho, Hs, Hc.
  - unfold resolve_owner. rewrite Hurl, Howner, Hsrc. cbn [from_option id].
    assert (truthy (JStr s) = true) as ->.
    { simpl. destruct (String.eqb_spec s ""); [done|done]. }
    rewrite bool_decide_true by eauto. cbn [andb owner_of_repo_url].
    by rewrite Hslice.
  - unfold resolve_repo. by rewrite Hsrc.
Qed.

Lemma short_source_url_gives_empty_owner_witness :
  resolve_owner obj_def "Concept" true true false
    (list_to_map [("id", JStr "C1"); ("source_url", JStr "ab/c")])
  = Ok (JStr "", list_to_map [("id", JStr "C1"); ("source_url", JStr "ab/c")])
  ∧ resolve_repo "Concept" true false (JStr "")
      (list_to_map [("id", JStr "C1"); ("source_url", JStr "ab/c")])
    = Ok (JStr "ab/c",
          delete "source" (delete "source_url"
            (list_to_map [("id", JStr "C1"); ("source_url", JStr "ab/c")]))).
Proof.
  pose proof (short_source_url_gives_empty_owner obj_def "Concept"
    {| id_field := Some "id"; url_name := "concepts";
       has_owner := true; has_source := true; has_collection := false;
       omit_resource_name_on_get := None;
       allowed_fields := ["id"; "external_id"; "concept_class"; "datatype"; "names";
                          "descriptions"; "retired"; "extras"];
       create_method := Some "POST"; update_method := Some "POST" |}
    (list_to_map [("id", JStr "C1"); ("source_url", JStr "ab/c")]) "ab/c"
    eq_refl eq_refl eq_refl eq_refl eq_refl eq_refl eq_refl
    ltac:(discriminate) ltac:(vm_compute; lia)) as (_ & _ & _ & Howner & Hrepo).
  exact (conj Howner Hrepo).
Defined.

End ShortSourceUrl.

(** ** The existence probe *)

Section Prober.

Variable server : list request → request → Z.

(** The probe never touches the aggregator, nor the settings. *)
Lemma does_object_exist_import_results (st : OclFlexImporter.t) (obj_url : jval)
    (use_cache : bool) :
  import_results (does_object_exist server st obj_url use_cache).1 = import_results st.
Proof.
  unfold does_object_exist. destruct obj_url; try done.
  destruct (use_cache && _); [done|]. simpl.
  by repeat destruct (_ =? _).
Qed.

(** A probe of an address whose existence is cached returns at once. *)
Lemma does_object_exist_cached (st : OclFlexImporter.t) (url : string) :
  cache_obj_exists st !! url = Some true →
  does_object_exist server st (JStr url) true = (st, Ok true).
Proof.
  intros Hc. unfold does_object_exist. by rewrite bool_decide_true.
Qed.

(** A probe of an address that is not cached sends one HEAD request. *)
Lemma does_object_exist_uncached (st : OclFlexImporter.t) (url : string) :
  cache_obj_exists st !! url ≠ Some true →
  requests (does_object_exist server st (JStr url) true).1
  = (requests st ++ [HEAD (api_url_root st ++ url)])%list.
Proof.
  intros Hc. unfold does_object_exist. rewrite bool_decide_false by done. simpl.
  by repeat destruct (_ =? _).
Qed.

(** C6. When a probe of an address has returned true, a second probe of the
    same address returns true again and leaves the importer as it was, the
    trace of requests included: it is served from the cache. When a probe
    has returned false, the cache is as before, and the next probe of the
    same address sends a HEAD request for it. *)
Theorem probe_caches_positive_results_only (st st1 : OclFlexImporter.t) (url : string)
    (found : bool) :
  does_object_exist server st (JStr url) true = (st1, Ok found) →
  if found
  then does_object_exist server st1 (JStr url) true = (st1, Ok true)
  else cache_obj_exists st1 = cache_obj_exists st
       ∧ requests (does_object_exist server st1 (JStr url) true).1
         = (requests st1 ++ [HEAD (api_url_root st1 ++ url)])%list.
Proof.
  intros H. unfold does_object_exist in H.
  destruct (bool_decide (cache_obj_exists st !! url = Some true)) eqn:Hc;
    cbn [andb] in H.
  - apply bool_decide_eq_true in Hc. injection H as <- <-.
    by apply does_object_exist_cached.
  - apply bool_decide_eq_false in Hc. unfold send in H. lazy beta iota in H.
    destruct (server (requests st) (HEAD (api_url_root st ++ url)) =? 200).
    { injection H as <- <-. apply does_object_exist_cached.
      apply lookup_insert_eq. }
    destruct (server (requests st) (HEAD (api_url_root st ++ url)) =? 404);
      [|discriminate].
    injection H as <- <-. split; [done|].
    by apply does_object_exist_uncached.
Qed.

End Prober.

Lemma probe_caches_positive_results_only_witness :
  let server := fun (_ : list request) (rq : request) =>
    match rq with HEAD "http://api/orgs/Org1/" => 200 | _ => 404 end in
  let st := OclFlexImporter.started "http://api" 0 false 1 false 1 in
  let st1 := (does_object_exist server st (JStr "/orgs/Org1/") true).1 in
  let st2 := (does_object_exist server st (JStr "/orgs/Org2/") true).1 in
  does_object_exist server st1 (JStr "/orgs/Org1/") true = (st1, Ok true)
  ∧ requests (does_object_exist server st2 (JStr "/orgs/Org2/") true).1
    = [HEAD "http://api/orgs/Org2/"; HEAD "http://api/orgs/Org2/"].
Proof.
  intros server st st1 st2. split.
  - exact (probe_caches_positive_results_only server st st1 "/orgs/Org1/" true eq_refl).
  - exact (proj2 (probe_caches_positive_results_only server st st2 "/orgs/Org2/" false
                    eq_refl)).
Defined.

(** ** The executor and [process_object] *)

Section Executor.

Variable server : list request → request → Z.
Variable urlencode : record → string.

Lemma write_log_import_results (st : OclFlexImporter.t) (l : logline) :
  import_results (write_log st l) = import_results st.
Proof. reflexivity. Qed.

(** C3, amended. When the object already exists, the type has an update
    verb, the run is not a test run and updates are enabled, the executor
    sends no request and records no outcome: it only logs the update it
    skips, with the update verb of the registry and the object address. *)
Theorem existing_object_update_is_skipped (st : OclFlexImporter.t) (obj_type : string)
    (d : obj_definition) (m : string) (obj_id obj_owner_url obj_repo_url : jval)
    (obj_url new_obj_url : string) (obj obj_not_allowed query_params : record) :
  registry st !! obj_type = Some d →
  update_method d = Some m →
  test_mode st = false →
  do_update_if_exists st = true →
  let out := update_or_create server urlencode st obj_type obj_id obj_owner_url
               obj_repo_url obj_url new_obj_url true obj obj_not_allowed query_params in
  out.2 = Ok tt
  ∧ requests out.1 = requests st
  ∧ import_results out.1 = import_results st
  ∧ cache_obj_exists out.1 = cache_obj_exists st
  ∧ log out.1
    = (log st ++ [LogSkippingUpdate (Some m)
                    (api_url_root st ++
                     (if bool_decide (query_params = ∅) then obj_url
                      else obj_url ++ "?" ++ urlencode query_params)) obj])%list.
Proof.
  intros Hd Hm Htest _. unfold update_or_create. rewrite Hd, Hm, Htest.
  by repeat split.
Qed.

End Executor.

Lemma existing_object_update_is_skipped_witness :
  let st := OclFlexImporter.started "http://api" 0 false 1 true 1 in
  let out := update_or_create (fun _ _ => 200) (fun _ => "") st "Concept"
               (JStr "C1") (JStr "/orgs/Org1/") (JStr "/orgs/Org1/sources/S1/")
               "/orgs/Org1/sources/S1/concepts/C1/" "/orgs/Org1/sources/S1/concepts/"
               true (<["id" := JStr "C1"]> ∅) ∅ ∅ in
  out.2 = Ok tt ∧ requests out.1 = [] ∧ import_results out.1 = OclImportResults.init 1.
Proof.
  intros st out.
  destruct (existing_object_update_is_skipped (fun _ _ => 200) (fun _ => "") st "Concept"
    {| id_field := Some "id"; url_name := "concepts";
       has_owner := true; has_source := true; has_collection := false;
       omit_resource_name_on_get := None;
       allowed_fields := ["id"; "external_id"; "concept_class"; "datatype"; "names";
                          "descriptions"; "retired"; "extras"];
       create_method := Some "POST"; update_method := Some "POST" |}
    "POST" (JStr "C1") (JStr "/orgs/Org1/") (JStr "/orgs/Org1/sources/S1/")
    "/orgs/Org1/sources/S1/concepts/C1/" "/orgs/Org1/sources/S1/concepts/"
    (<["id" := JStr "C1"]> ∅) ∅ ∅
    ltac:(vm_compute; reflexivity) eq_refl eq_refl eq_refl) as (H1 & H2 & H3 & _).
  exact (conj H1 (conj H2 H3)).
Defined.

(** C3 as stated fails: for an existing concept, outside test mode and with
    updates enabled, no request is sent. *)
Lemma existing_object_is_updated_fails : ¬ existing_object_is_updated.
Proof.
  intros H.
  destruct (H (fun _ _ => 200) (fun _ => "")
              (OclFlexImporter.started "http://api" 0 false 1 true 1) "Concept"
    {| id_field := Some "id"; url_name := "concepts";
       has_owner := true; has_source := true; has_collection := false;
       omit_resource_name_on_get := None;
       allowed_fields := ["id"; "external_id"; "concept_class"; "datatype"; "names";
                          "descriptions"; "retired"; "extras"];
       create_method := Some "POST"; update_method := Some "POST" |}
    "POST" (JStr "C1") (JStr "/orgs/Org1/") (JStr "/orgs/Org1/sources/S1/")
    "/orgs/Org1/sources/S1/concepts/C1/" "/orgs/Org1/sources/S1/concepts/"
    (<["id" := JStr "C1"]> ∅) ∅
    ltac:(vm_compute; reflexivity) eq_refl eq_refl eq_refl) as [(rq & Hrq & _) _].
  vm_compute in Hrq. discriminate.
Qed.

(** ** Abandoned records *)

Section Abandon.

Variable server : list request → request → Z.
Variable urlencode : record → string.

Lemma log_debug_info_import_results (st : OclFlexImporter.t) (obj_type : string)
    (r : resolved) :
  import_results (log_debug_info st obj_type r) = import_results st.
Proof.
  unfold log_debug_info. destruct (1 <=? verbosity st); simpl.
  - by destruct (2 <=? verbosity st).
  - by destruct (2 <=? verbosity st).
Qed.

Ltac probe_cases server st url :=
  pose proof (does_object_exist_import_results server st url true);
  destruct (does_object_exist server st url true) as [? [[|]|[]]]; simpl in *.

(** None of the three checks of [process_object] touches the aggregator,
    whatever they return. *)
Lemma check_owner_import_results (st : OclFlexImporter.t) (r : resolved) :
  import_results (check_owner server st r).1 = import_results st.
Proof.
  unfold check_owner. destruct (res_has_owner r && truthy (res_obj_owner_url r)); [|done].
  probe_cases server st (res_obj_owner_url r); try done.
  by destruct (test_mode _).
Qed.

Lemma check_repository_import_results (st : OclFlexImporter.t) (r : resolved) :
  import_results (check_repository server st r).1 = import_results st.
Proof.
  unfold check_repository.
  destruct ((res_has_source r || res_has_collection r) && truthy (res_obj_repo_url r));
    [|done].
  probe_cases server st (res_obj_repo_url r); try done.
  by destruct (test_mode _).
Qed.

Lemma check_object_import_results (st : OclFlexImporter.t) (obj_type : string)
    (r : resolved) :
  import_results (check_object server st obj_type r).1 = import_results st.
Proof.
  unfold check_object.
  destruct (String.eqb obj_type "Reference").
  { simpl. destruct (do_update_if_exists st); reflexivity. }
  destruct (String.eqb obj_type "Mapping").
  { simpl. destruct (do_update_if_exists st); reflexivity. }
  probe_cases server st (JStr (res_obj_url r)); try done.
  - destruct (do_update_if_exists _); simpl; [done|]. by destruct (test_mode _).
Qed.

(** A call of [process_object] that ends at one of its early [return]s
    leaves the aggregator as it found it. *)
Lemma process_object_returned (st st' : OclFlexImporter.t) (obj_type : string)
    (obj : record) (x : exit_point) :
  process_object server urlencode st obj_type obj = (st', Ok (Returned x)) →
  import_results st' = import_results st.
Proof.
  unfold process_object.
  destruct (resolve (registry st) obj_type obj) as [r|]; [|discriminate].
  pose proof (log_debug_info_import_results st obj_type r) as H0.
  set (st0 := log_debug_info st obj_type r) in *.
  pose proof (check_owner_import_results st0 r) as H1.
  destruct (check_owner server st0 r) as [st1 [[x1|]|]]; simpl in H1.
  { intros [= <- <-]. congruence. }
  2: discriminate.
  pose proof (check_repository_import_results st1 r) as H2.
  destruct (check_repository server st1 r) as [st2 [[x2|]|]]; simpl in H2.
  { intros [= <- <-]. congruence. }
  2: discriminate.
  pose proof (check_object_import_results st2 obj_type r) as H3.
  destruct (check_object server st2 obj_type r) as [st3 [[x3|exists_]|]]; simpl in H3.
  { intros [= <- <-]. congruence. }
  2: discriminate.
  unfold create_or_update.
  destruct (update_or_create _ _ _ _ _ _ _ _ _ _ _ _ _) as [st4 [[]|[]]]; discriminate.
Qed.

(** C2, amended. A record abandoned at an early [return] of
    [process_object] (owner or repository missing, unexpected status of a
    probe, object already there without update) leaves the aggregator
    unchanged: neither [count] nor [num_skipped] moves and nothing is
    recorded. [process_object] returns normally, and the driver goes on to
    the next line after adding one to its own local [num_processed]. *)
Theorem abandoned_record_leaves_aggregator (st st' : OclFlexImporter.t) (c : counters)
    (ln : line) (ty : string) (x : exit_point) :
  json_line_obj ln !! "type" = Some (JStr ty) →
  is_Some (registry st !! ty) →
  process_object server urlencode (write_log st LogBlank) ty
    (delete "type" (json_line_obj ln)) = (st', Ok (Returned x)) →
  import_results st' = import_results st
  ∧ process_line server urlencode st c ln
    = (write_log st' LogSummary,
       {| count := count c + 1; num_processed := num_processed c + 1;
          num_skipped := num_skipped c |}, Ok tt).
Proof.
  intros Hty Hreg Hrun. split.
  - by rewrite (process_object_returned _ _ _ _ _ Hrun).
  - unfold process_line. rewrite Hty. rewrite bool_decide_true by done.
    by rewrite Hrun.
Qed.

End Abandon.

Lemma abandoned_record_leaves_aggregator_witness :
  let server := fun (_ : list request) (_ : request) => 404 in
  let st := OclFlexImporter.started "http://api" 0 false 1 false 1 in
  let ln := {| json_line_raw := "line";
               json_line_obj := list_to_map [("type", JStr "Concept"); ("id", JStr "C1");
                 ("source", JStr "S1"); ("owner", JStr "Org1");
                 ("owner_type", JStr "Organization")] |} in
  let c := {| count := 0; num_processed := 0; num_skipped := 0 |} in
  let st' := (process_object server (fun _ => "") (write_log st LogBlank) "Concept"
                (delete "type" (json_line_obj ln))).1 in
  import_results st' = import_results st
  ∧ process_line server (fun _ => "") st c ln
    = (write_log st' LogSummary,
       {| count := 1; num_processed := 1; num_skipped := 0 |}, Ok tt).
Proof.
  intros server st ln c st'.
  exact (abandoned_record_leaves_aggregator server (fun _ => "") st st' c ln "Concept"
           ExitOwnerMissing ltac:(vm_compute; reflexivity)
           ltac:(vm_compute; eauto) ltac:(vm_compute; reflexivity)).
Defined.

(** C2 as stated fails: a concept whose owner does not exist is abandoned,
    and neither counter of the aggregator moves. *)
Lemma abandoned_record_is_counted_fails : ¬ abandoned_record_is_counted.
Proof.
  intros H.
  pose (st := OclFlexImporter.started "http://api" 0 false 1 false 1).
  pose (obj := list_to_map [("id", JStr "C1"); ("source", JStr "S1");
             ("owner", JStr "Org1"); ("owner_type", JStr "Organization")] : record).
  destruct (H (fun _ _ => 404) (fun _ => "") st
              (process_object (fun _ _ => 404) (fun _ => "") st "Concept" obj).1
              "Concept" obj ExitOwnerMissing ltac:(vm_compute; reflexivity)) as [Hc|Hc];
    vm_compute in Hc; discriminate.
Qed.

(** ** Recording an outcome *)

Section Recording.

Import OclImportResults.

(** The dictionary of status codes that [add] finds, or creates, for a root
    and an action type. *)
Lemma only_outcomes_slot (r : OclImportResults.t) (root action : pykey) :
  only_outcomes r →
  ∃ d, default (SlotDict ∅) (default ∅ (_results r !! root) !! action) = SlotDict d
       ∧ ∀ status, outcomes r root action status = default [] (d !! status).
Proof.
  intros Hwf. unfold outcomes.
  destruct (_results r !! root) as [m|] eqn:Hroot; cbn [from_option]; unfold id.
  - destruct (m !! action) as [[d|]|] eqn:Ha; cbn [from_option].
    + by exists d.
    + by destruct (Hwf root m action Hroot).
    + exists ∅. split; [done|]. intros status. by rewrite lookup_empty.
  - rewrite lookup_empty. exists ∅. split; [done|]. intros status.
    by rewrite lookup_empty.
Qed.

(** What [add] returns when the slot of the action type is a dictionary. *)
Lemma add_unfold (r : OclImportResults.t) (obj_url action_type obj_type : string)
    (obj_repo_url : jval) (http_method : string) (obj_owner_url : jval)
    (code : Z) (root : pykey) (d : gmap pykey (list string)) :
  to_key (logging_root obj_type obj_repo_url obj_owner_url) = Ok root →
  default (SlotDict ∅) (default ∅ (_results r !! root) !! KStr action_type) = SlotDict d →
  add r obj_url action_type obj_type obj_repo_url http_method obj_owner_url (Some code)
  = ({| _results :=
          <[root :=
             <[KStr action_type :=
                SlotDict (<[KInt code :=
                            (default [] (d !! KInt code)
                             ++ [(http_method ++ " " ++ obj_url)%string])%list]>
                          (setdefault (KInt code) [] d))]>
             (setdefault (KStr action_type) (SlotDict ∅)
                (default ∅ (_results r !! root)))]>
          (setdefault root ∅ (_results r));
        count := count r + 1;
        num_skipped := num_skipped r;
        total_lines := total_lines r |}, Ok tt).
Proof.
  intros Hkey Hslot. unfold add. rewrite Hkey.
  rewrite !setdefault_lookup. cbn [from_option]. unfold id in *.
  rewrite Hslot, setdefault_lookup. reflexivity.
Qed.

(** On an aggregator that holds only outcomes, [add] succeeds: it appends
    one descriptor to the list of its root, action type and status code,
    leaves every other list as it was, and adds one to [count]. *)
Lemma add_records_one (r : OclImportResults.t) (obj_url action_type obj_type : string)
    (obj_repo_url : jval) (http_method : string) (obj_owner_url : jval)
    (code : Z) (root : pykey) :
  only_outcomes r →
  to_key (logging_root obj_type obj_repo_url obj_owner_url) = Ok root →
  let out := add r obj_url action_type obj_type obj_repo_url http_method
               obj_owner_url (Some code) in
  out.2 = Ok tt
  ∧ count out.1 = count r + 1
  ∧ num_skipped out.1 = num_skipped r
  ∧ outcomes out.1 root (KStr action_type) (KInt code)
    = (outcomes r root (KStr action_type) (KInt code)
       ++ [(http_method ++ " " ++ obj_url)%string])%list
  ∧ (∀ root' action' status',
       (root', action', status') ≠ (root, KStr action_type, KInt code) →
       outcomes out.1 root' action' status' = outcomes r root' action' status')
  ∧ only_outcomes out.1.
Proof.
  intros Hwf Hkey out.
  destruct (only_outcomes_slot r root (KStr action_type) Hwf) as (d & Hslot & Hd).
  subst out. rewrite (add_unfold _ _ _ _ _ _ _ _ _ _ Hkey Hslot).
  cbn [fst snd count num_skipped]. repeat split.
  - rewrite Hd. unfold outcomes. cbn [_results]. by rewrite !lookup_insert_eq.
  - intros root' action' status' Hne. unfold outcomes at 1. cbn [_results].
    destruct (decide (root' = root)) as [->|Hr].
    + rewrite lookup_insert_eq.
      destruct (decide (action' = KStr action_type)) as [->|Ha].
      * rewrite lookup_insert_eq.
        destruct (decide (status' = KInt code)) as [->|Hs]; [done|].
        rewrite lookup_insert_ne by done. rewrite setdefault_lookup_ne by done.
        by rewrite Hd.
      * rewrite lookup_insert_ne by done. rewrite setdefault_lookup_ne by done.
        unfold outcomes. destruct (_results r !! root); [done|].
        cbn [from_option]. unfold id. by rewrite lookup_empty.
    + rewrite lookup_insert_ne by done. rewrite setdefault_lookup_ne by done.
      reflexivity.
  - intros root' m k. cbn [_results].
    destruct (decide (root' = root)) as [->|Hr].
    + rewrite lookup_insert_eq. intros [= <-].
      destruct (decide (k = KStr action_type)) as [->|Hk].
      * by rewrite lookup_insert_eq.
      * rewrite lookup_insert_ne by done. rewrite setdefault_lookup_ne by done.
        destruct (_results r !! root) as [m|] eqn:Hroot; cbn [from_option]; unfold id.
        -- by apply (Hwf root m k).
        -- by rewrite lookup_empty.
    + rewrite lookup_insert_ne by done. rewrite setdefault_lookup_ne by done.
      apply Hwf.
Qed.

Lemma only_outcomes_init (total_lines : Z) : only_outcomes (init total_lines).
Proof. intros root m k. unfold init. cbn [_results]. by rewrite lookup_empty. Qed.

End Recording.

(** ** Transmissions *)

Section Transmission.

Variable server : list request → request → Z.
Variable urlencode : record → string.

(** C7. A creation that is really transmitted (not a test run, the create
    verb of the type being POST or PUT) is recorded exactly once, whatever
    the status code of the response: one descriptor joins the outcomes of
    its root, action type 'new' and status code, no other list changes and
    [count] grows by one. Only then does [update_or_create] raise for an
    error status; [process_object] catches that error, logs it and ends
    normally. *)
Theorem transmission_is_recorded_once (st : OclFlexImporter.t) (obj_type : string)
    (d : obj_definition) (m : string) (r : resolved) (root : pykey) :
  registry st !! obj_type = Some d →
  create_method d = Some m →
  m = "POST" ∨ m = "PUT" →
  test_mode st = false →
  only_outcomes (import_results st) →
  to_key (OclImportResults.logging_root obj_type (res_obj_repo_url r)
            (res_obj_owner_url r)) = Ok root →
  let url := api_url_root st ++
             (if bool_decide (res_query_params r = ∅) then res_new_obj_url r
              else res_new_obj_url r ++ "?" ++ urlencode (res_query_params r)) in
  let rq := if String.eqb m "POST" then POST url (res_obj r) else PUT url (res_obj r) in
  let code := server (requests st) rq in
  let sent := update_or_create server urlencode st obj_type (res_obj_id r)
                (res_obj_owner_url r) (res_obj_repo_url r) (res_obj_url r)
                (res_new_obj_url r) false (res_obj r) (res_obj_not_allowed r)
                (res_query_params r) in
  let ended := create_or_update server urlencode st obj_type r false in
  requests sent.1 = (requests st ++ [rq])%list
  ∧ OclImportResults.count (import_results sent.1)
    = OclImportResults.count (import_results st) + 1
  ∧ OclImportResults.outcomes (import_results sent.1) root (KStr ACTION_TYPE_NEW)
      (KInt code)
    = (OclImportResults.outcomes (import_results st) root (KStr ACTION_TYPE_NEW)
         (KInt code) ++ [(m ++ " " ++ res_obj_url r)%string])%list
  ∧ (∀ root' action' status',
       (root', action', status') ≠ (root, KStr ACTION_TYPE_NEW, KInt code) →
       OclImportResults.outcomes (import_results sent.1) root' action' status'
       = OclImportResults.outcomes (import_results st) root' action' status')
  ∧ sent.2 = raise_for_status code
  ∧ ended.2 = Ok Finished
  ∧ import_results ended.1 = import_results sent.1
  ∧ requests ended.1 = requests sent.1
  ∧ (400 ≤ code < 600 →
     log ended.1 = (log sent.1 ++ [LogError (HTTPError code)])%list).
Proof.
  intros Hd Hcreate Hm Htest Hwf Hkey url rq code sent ended.
  pose proof (add_records_one (import_results st) (res_obj_url r)
                ACTION_TYPE_NEW obj_type (res_obj_repo_url r) m (res_obj_owner_url r)
                code root Hwf Hkey) as Hadd.
  cbv zeta in Hadd.
  assert (Hsent : sent =
    (set_import_results
       (write_log (write_log (write_log
          (set_requests (write_log st (LogRequest (Some m) url (res_obj r)))
             (requests st ++ [rq])%list)
          (LogStatusCode code)) LogHeaders) LogText)
       (OclImportResults.add (import_results st) (res_obj_url r) ACTION_TYPE_NEW
          obj_type (res_obj_repo_url r) m (res_obj_owner_url r) (Some code)).1,
     raise_for_status code)).
  { subst sent. unfold update_or_create. rewrite Hd, Hcreate, Htest.
    cbv zeta. cbn [api_url_root write_log]. fold url.
    assert ((if String.eqb m "POST"
             then Some (m, send server
                             (write_log st (LogRequest (Some m) url (res_obj r)))
                             (POST url (res_obj r)))
             else if String.eqb m "PUT"
             then Some (m, send server
                             (write_log st (LogRequest (Some m) url (res_obj r)))
                             (PUT url (res_obj r)))
             else None)
            = Some (m, send server
                         (write_log st (LogRequest (Some m) url (res_obj r))) rq)) as ->.
    { subst rq. by destruct Hm as [-> | ->]. }
    unfold send. cbn [requests write_log import_results set_requests]. fold code.
    destruct (OclImportResults.add (import_results st) (res_obj_url r) ACTION_TYPE_NEW
                obj_type (res_obj_repo_url r) m (res_obj_owner_url r) (Some code))
      as [ra res].
    destruct Hadd as (Hres & _). cbn [snd] in Hres. subst res. reflexivity. }
  assert (Hended : ended =
    (if (400 <=? code) && (code <? 600)
     then write_log sent.1 (LogError (HTTPError code)) else sent.1, Ok Finished)).
  { subst ended. unfold create_or_update. fold sent. rewrite Hsent.
    cbn [fst]. unfold raise_for_status.
    by destruct ((400 <=? code) && (code <? 600)). }
  destruct Hadd as (_ & Hcount & _ & Hout & Hothers & _).
  rewrite Hended, Hsent. cbn [fst snd import_results set_import_results write_log
    set_requests requests log].
  repeat split; try done.
  - by destruct ((400 <=? code) && (code <? 600)).
  - by destruct ((400 <=? code) && (code <? 600)).
  - intros Hcode.
    assert ((400 <=? code) && (code <? 600) = true) as -> by lia.
    reflexivity.
Qed.

End Transmission.

(** ** The settings are read-only *)

Section Settings.

Variable server : list request → request → Z.
Variable urlencode : record → string.

Lemma same_settings_refl (st : OclFlexImporter.t) : same_settings st st.
Proof. by repeat split. Qed.

Lemma same_settings_trans (st1 st2 st3 : OclFlexImporter.t) :
  same_settings st1 st2 → same_settings st2 st3 → same_settings st1 st3.
Proof.
  unfold same_settings. intros (?&?&?&?&?&?&?) (?&?&?&?&?&?&?).
  repeat split; congruence.
Qed.

Lemma same_settings_write_log (st : OclFlexImporter.t) (l : logline) :
  same_settings st (write_log st l).
Proof. by repeat split. Qed.

Lemma does_object_exist_settings (st : OclFlexImporter.t) (obj_url : jval)
    (use_cache : bool) :
  same_settings st (does_object_exist server st obj_url use_cache).1.
Proof.
  unfold does_object_exist. destruct obj_url; try apply same_settings_refl.
  destruct (use_cache && _); [apply same_settings_refl|].
  unfold send. lazy beta iota.
  by repeat destruct (_ =? _).
Qed.

Lemma log_debug_info_settings (st : OclFlexImporter.t) (obj_type : string)
    (r : resolved) :
  same_settings st (log_debug_info st obj_type r).
Proof.
  unfold log_debug_info.
  destruct (1 <=? verbosity st); cbn [verbosity write_log];
    destruct (2 <=? verbosity st); by repeat split.
Qed.

Lemma check_owner_settings (st : OclFlexImporter.t) (r : resolved) :
  same_settings st (check_owner server st r).1.
Proof.
  unfold check_owner.
  destruct (res_has_owner r && truthy (res_obj_owner_url r));
    [|apply same_settings_refl].
  pose proof (does_object_exist_settings st (res_obj_owner_url r) true) as H.
  destruct (does_object_exist server st (res_obj_owner_url r) true)
    as [st1 [[|]|[]]]; cbn [fst] in *; try done.
  cbn [test_mode write_log]. by destruct (test_mode st1).
Qed.

Lemma check_repository_settings (st : OclFlexImporter.t) (r : resolved) :
  same_settings st (check_repository server st r).1.
Proof.
  unfold check_repository.
  destruct ((res_has_source r || res_has_collection r) && truthy (res_obj_repo_url r));
    [|apply same_settings_refl].
  pose proof (does_object_exist_settings st (res_obj_repo_url r) true) as H.
  destruct (does_object_exist server st (res_obj_repo_url r) true)
    as [st1 [[|]|[]]]; cbn [fst] in *; try done.
  cbn [test_mode write_log]. by destruct (test_mode st1).
Qed.

Lemma check_object_settings (st : OclFlexImporter.t) (obj_type : string)
    (r : resolved) :
  same_settings st (check_object server st obj_type r).1.
Proof.
  unfold check_object.
  destruct (String.eqb obj_type "Reference").
  { unfold does_reference_exist. cbn [andb]. apply same_settings_write_log. }
  destruct (String.eqb obj_type "Mapping").
  { unfold does_mapping_exist. cbn [andb]. apply same_settings_write_log. }
  pose proof (does_object_exist_settings st (JStr (res_obj_url r)) true) as H.
  destruct (does_object_exist server st (JStr (res_obj_url r)) true)
    as [st1 [[|]|[]]]; cbn [fst andb] in *; try done.
  destruct (do_update_if_exists st1); cbn [negb]; [done|].
  cbn [test_mode write_log]. by destruct (test_mode st1).
Qed.

Lemma update_or_create_settings (st : OclFlexImporter.t) (obj_type : string)
    (obj_id obj_owner_url obj_repo_url : jval) (obj_url new_obj_url : string)
    (obj_already_exists : bool) (obj obj_not_allowed query_params : record) :
  same_settings st
    (update_or_create server urlencode st obj_type obj_id obj_owner_url obj_repo_url
       obj_url new_obj_url obj_already_exists obj obj_not_allowed query_params).1.
Proof.
  unfold update_or_create.
  destruct (registry st !! obj_type) as [d|]; [|apply same_settings_refl].
  destruct obj_already_exists; lazy beta iota.
  - destruct (test_mode st); by repeat split.
  - destruct (test_mode st); [by repeat split|].
    destruct (create_method d) as [m|]; [|by repeat split].
    destruct (String.eqb m "POST").
    { unfold send. lazy beta iota. destruct (OclImportResults.add _ _ _ _ _ _ _ _) as [ra [|]];
        by repeat split. }
    destruct (String.eqb m "PUT"); [|by repeat split].
    unfold send. lazy beta iota. destruct (OclImportResults.add _ _ _ _ _ _ _ _) as [ra [|]];
      by repeat split.
Qed.

Lemma create_or_update_settings (st : OclFlexImporter.t) (obj_type : string)
    (r : resolved) (obj_already_exists : bool) :
  same_settings st (create_or_update server urlencode st obj_type r obj_already_exists).1.
Proof.
  unfold create_or_update.
  pose proof (update_or_create_settings st obj_type (res_obj_id r) (res_obj_owner_url r)
                (res_obj_repo_url r) (res_obj_url r) (res_new_obj_url r)
                obj_already_exists (res_obj r) (res_obj_not_allowed r)
                (res_query_params r)) as H.
  destruct (update_or_create _ _ _ _ _ _ _ _ _ _ _ _ _) as [st1 [|[]]];
    cbn [fst] in *; try done.
Qed.

(** [process_object] leaves the settings of the importer as they are. *)
Lemma process_object_settings (st : OclFlexImporter.t) (obj_type : string)
    (obj : record) :
  same_settings st (process_object server urlencode st obj_type obj).1.
Proof.
  unfold process_object.
  destruct (resolve (registry st) obj_type obj) as [r|]; [|apply same_settings_refl].
  pose proof (log_debug_info_settings st obj_type r) as H0.
  set (st0 := log_debug_info st obj_type r) in *.
  pose proof (check_owner_settings st0 r) as H1.
  destruct (check_owner server st0 r) as [st1 [[x1|]|]]; cbn [fst] in *;
    try (eapply same_settings_trans; eassumption).
  pose proof (check_repository_settings st1 r) as H2.
  destruct (check_repository server st1 r) as [st2 [[x2|]|]]; cbn [fst] in *;
    try (eapply same_settings_trans; [|eassumption];
         eapply same_settings_trans; eassumption).
  pose proof (check_object_settings st2 obj_type r) as H3.
  destruct (check_object server st2 obj_type r) as [st3 [[x3|found]|]]; cbn [fst] in *;
    try (eapply same_settings_trans; [|eassumption];
         eapply same_settings_trans; [|eassumption];
         eapply same_settings_trans; eassumption).
  pose proof (create_or_update_settings st3 obj_type r found) as H4.
  eapply same_settings_trans; [|eassumption].
  eapply same_settings_trans; [|eassumption].
  eapply same_settings_trans; [|eassumption].
  eapply same_settings_trans; eassumption.
Qed.

End Settings.

(** ** The scenario of the concept record *)

Section Scenario.

Variable server : list request → request → Z.
Variable urlencode : record → string.

Lemma concept_definition :
  obj_def !! "Concept"
  = Some {| id_field := Some "id"; url_name := "concepts";
            has_owner := true; has_source := true; has_collection := false;
            omit_resource_name_on_get := None;
            allowed_fields := ["id"; "external_id"; "concept_class"; "datatype";
                               "names"; "descriptions"; "retired"; "extras"];
            create_method := Some "POST"; update_method := Some "POST" |}.
Proof. vm_compute. reflexivity. Qed.

Lemma example_concept_payload_fields :
  dom example_concept_payload
  = ({["id"; "concept_class"; "datatype"; "extras"]} : gset string).
Proof. vm_compute. reflexivity. Qed.

(** C5. The concept record of the scenario resolves to the owner address
    "/orgs/Org1/", the repository address "/orgs/Org1/sources/S1/", the
    creation address "/orgs/Org1/sources/S1/concepts/" and the object
    address "/orgs/Org1/sources/S1/concepts/C1/". When the run is not a test
    run, the owner and the repository pass their checks and the probe of the
    object address reports not-found, the next request is the POST of the
    creation address, and its payload has exactly the fields [id],
    [concept_class], [datatype] and [extras]. *)
Theorem concept_scenario (st st1 st2 st3 : OclFlexImporter.t) :
  registry st = obj_def →
  test_mode st = false →
  check_owner server (log_debug_info st "Concept" example_concept_resolved)
    example_concept_resolved = (st1, Ok None) →
  check_repository server st1 example_concept_resolved = (st2, Ok None) →
  does_object_exist server st2 (JStr "/orgs/Org1/sources/S1/concepts/C1/") true
  = (st3, Ok false) →
  ∃ r payload,
    resolve (registry st) "Concept" example_concept = Ok r
    ∧ res_obj_owner_url r = JStr "/orgs/Org1/"
    ∧ res_obj_repo_url r = JStr "/orgs/Org1/sources/S1/"
    ∧ res_new_obj_url r = "/orgs/Org1/sources/S1/concepts/"
    ∧ res_obj_url r = "/orgs/Org1/sources/S1/concepts/C1/"
    ∧ requests (process_object server urlencode st "Concept" example_concept).1
      = (requests st3
         ++ [POST (api_url_root st ++ "/orgs/Org1/sources/S1/concepts/") payload])%list
    ∧ dom payload = ({["id"; "concept_class"; "datatype"; "extras"]} : gset string).
Proof.
  intros Hreg Htest Howner Hrepo Hobject.
  exists example_concept_resolved, example_concept_payload.
  rewrite Hreg. split; [exact example_concept_resolves|].
  do 4 (split; [reflexivity|]).
  split; [|exact example_concept_payload_fields].
  (* the settings reach the executor unchanged *)
  pose proof (log_debug_info_settings st "Concept" example_concept_resolved) as S0.
  pose proof (check_owner_settings server
                (log_debug_info st "Concept" example_concept_resolved)
                example_concept_resolved) as S1.
  rewrite Howner in S1. cbn [fst] in S1.
  pose proof (check_repository_settings server st1 example_concept_resolved) as S2.
  rewrite Hrepo in S2. cbn [fst] in S2.
  pose proof (does_object_exist_settings server st2
                (JStr "/orgs/Org1/sources/S1/concepts/C1/") true) as S3.
  rewrite Hobject in S3. cbn [fst] in S3.
  pose proof (same_settings_trans _ _ _ (same_settings_trans _ _ _
                (same_settings_trans _ _ _ S0 S1) S2) S3)
    as (Sreg & Sroot & Stest & _).
  unfold process_object. rewrite Hreg, example_concept_resolves, Howner, Hrepo.
  unfold check_object.
  change (String.eqb "Concept" "Reference") with false.
  change (String.eqb "Concept" "Mapping") with false.
  change (res_obj_url example_concept_resolved)
    with "/orgs/Org1/sources/S1/concepts/C1/".
  rewrite Hobject. cbn [andb].
  unfold create_or_update, update_or_create.
  cbn [registry test_mode api_url_root write_log].
  rewrite Sreg, Hreg, concept_definition, Stest, Htest, Sroot.
  cbn [create_method res_query_params res_new_obj_url res_obj
       example_concept_resolved].
  rewrite bool_decide_true by done.
  change (String.eqb "POST" "POST") with true. cbv iota.
  unfold send. lazy beta iota.
  destruct (OclImportResults.add _ _ _ _ _ _ _ _) as [ra [|e]]; cbn [fst requests
    write_log set_import_results set_requests].
  - by destruct (raise_for_status _) as [|[]].
  - by destruct e.
Qed.

End Scenario.

Lemma concept_scenario_witness :
  let st0 := log_debug_info example_importer "Concept" example_concept_resolved in
  let st1 := (check_owner example_server st0 example_concept_resolved).1 in
  let st2 := (check_repository example_server st1 example_concept_resolved).1 in
  let st3 := (does_object_exist example_server st2
                (JStr "/orgs/Org1/sources/S1/concepts/C1/") true).1 in
  ∃ r payload,
    resolve (registry example_importer) "Concept" example_concept = Ok r
    ∧ res_obj_owner_url r = JStr "/orgs/Org1/"
    ∧ res_obj_repo_url r = JStr "/orgs/Org1/sources/S1/"
    ∧ res_new_obj_url r = "/orgs/Org1/sources/S1/concepts/"
    ∧ res_obj_url r = "/orgs/Org1/sources/S1/concepts/C1/"
    ∧ requests (process_object example_server (fun _ => "") example_importer
                  "Concept" example_concept).1
      = (requests st3
         ++ [POST (api_url_root example_importer ++ "/orgs/Org1/sources/S1/concepts/")
               payload])%list
    ∧ dom payload = ({["id"; "concept_class"; "datatype"; "extras"]} : gset string).
Proof.
  intros st0 st1 st2 st3.
  apply (concept_scenario example_server (fun _ => "") example_importer st1 st2 st3).
  - reflexivity.
  - reflexivity.
  - vm_compute. reflexivity.
  - vm_compute. reflexivity.
  - vm_compute. reflexivity.
Defined.

Lemma transmission_is_recorded_once_witness :
  let sent := update_or_create example_server (fun _ => "") example_importer "Concept"
                (res_obj_id example_concept_resolved)
                (res_obj_owner_url example_concept_resolved)
                (res_obj_repo_url example_concept_resolved)
                (res_obj_url example_concept_resolved)
                (res_new_obj_url example_concept_resolved) false
                (res_obj example_concept_resolved)
                (res_obj_not_allowed example_concept_resolved)
                (res_query_params example_concept_resolved) in
  let ended := create_or_update example_server (fun _ => "") example_importer
                 "Concept" example_concept_resolved false in
  OclImportResults.count (import_results sent.1)
  = OclImportResults.count (import_results example_importer) + 1
  ∧ sent.2 = raise_for_status 409
  ∧ ended.2 = Ok Finished.
Proof.
  intros sent ended.
  destruct (transmission_is_recorded_once example_server (fun _ => "") example_importer
              "Concept" _ "POST" example_concept_resolved
              (KStr "/orgs/Org1/sources/S1/") concept_definition eq_refl
              (or_introl eq_refl) eq_refl (only_outcomes_init 1) eq_refl)
    as (_ & Hcount & _ & _ & Hraise & Hended & _).
  exact (conj Hcount (conj Hraise Hended)).
Defined.

(** ** What a record can do to the importer *)

Section Effects.

Variable server : list request → request → Z.
Variable urlencode : record → string.


End Effects.

Section Effects2.

Variable server : list request → request → Z.
Variable urlencode : record → string.














End Effects2.

Section Records.

Variable server : list request → request → Z.
Variable urlencode : record → string.






End Records.



(** ** The driver *)

Section Driver.

Variable server : list request → request → Z.
Variable urlencode : record → string.


(** [add_skip] raises nothing but [TypeError]. *)
Lemma add_skip_error (r : OclImportResults.t) (obj_type : jval) (text : string)
    (e : pyexc) :
  (OclImportResults.add_skip r obj_type text).2 = Err e → e = TypeError.
Proof.
  unfold OclImportResults.add_skip.
  destruct (to_key _) as [key|e'] eqn:Hkey.
  - destruct (_ !! key) as [[d|]|]; cbn [snd]; congruence.
  - cbn [snd]. intros [= <-].
    destruct (if truthy obj_type then obj_type else _); try discriminate;
      simpl in Hkey; congruence.
Qed.


Lemma add_skip_settings (st : OclFlexImporter.t) (r : OclImportResults.t) :
  same_settings st (set_import_results st r).
Proof. by repeat split. Qed.

Lemma process_line_settings (st : OclFlexImporter.t) (c : counters) (ln : line) :
  same_settings st (process_line server urlencode st c ln).1.1.
Proof.
  unfold process_line.
  destruct (json_line_obj ln !! "type") as [[| | |ty| |]|];
    repeat match goal with
    | |- context [OclImportResults.add_skip ?r ?t ?x] =>
      destruct (OclImportResults.add_skip r t x) as [? [|]]
    | |- context [bool_decide ?P] => destruct (bool_decide P)
    end; cbn [fst]; try (by repeat split).
  all: pose proof (process_object_settings server urlencode (write_log st LogBlank) ty
                     (delete "type" (json_line_obj ln))) as H;
    destruct (process_object _ _ _ _ _) as [st1 [|]]; cbn [fst] in *;
    (eapply same_settings_trans; [apply same_settings_write_log|]);
    first [exact H
          |eapply same_settings_trans; [exact H|apply same_settings_write_log]].
Qed.





End Driver.




(** ** Exceptions that end a run *)

Section Exceptions.

Variable server : list request → request → Z.
Variable urlencode : record → string.

Ltac pick_error :=
  unfold record_error;
  repeat first [reflexivity | left; reflexivity | right].

Lemma bind_error {A B : Type} (k : A → result B) (r : result A) (e : pyexc) :
  (r ≫= k) = Err e → r = Err e ∨ ∃ a, r = Ok a ∧ k a = Err e.
Proof. destruct r as [a|e']; [eauto|]. intros [= <-]. by left. Qed.

Lemma str_add_error (s : string) (v : jval) (e : pyexc) :
  str_add s v = Err e → e = TypeError.
Proof. destruct v; simpl; congruence. Qed.

Lemma add_str_error (v : jval) (s : string) (e : pyexc) :
  add_str v s = Err e → e = TypeError.
Proof. destruct v; simpl; congruence. Qed.

Lemma owner_of_repo_url_error (url : jval) (e : pyexc) :
  owner_of_repo_url url = Err e → e = AttributeError.
Proof. destruct url; simpl; congruence. Qed.

Lemma owner_address_error (reg : gmap string obj_definition) (kind : string)
    (obj_owner : jval) (obj : record) (e : pyexc) :
  (seg ← url_name_of reg kind;
   s ← str_add ("/" ++ seg ++ "/") obj_owner;
   Ok (JStr (s ++ "/"), obj)) = Err e →
  e = KeyError ∨ e = TypeError.
Proof.
  unfold url_name_of. destruct (reg !! kind) as [d|]; [|intros [= <-]; by left].
  rewrite bind_Ok. intros H. apply bind_error in H as [H|(? & _ & H)]; [|discriminate].
  right. by apply str_add_error in H.
Qed.

Lemma resolve_owner_error (reg : gmap string obj_definition) (obj_type : string)
    (has_owner has_source has_collection : bool) (obj : record) (e : pyexc) :
  resolve_owner reg obj_type has_owner has_source has_collection obj = Err e →
  record_error obj_type e.
Proof.
  unfold resolve_owner. destruct has_owner; [|discriminate].
  destruct (obj !! "owner_url"); [discriminate|].
  assert (Hderived : ∀ u : jval,
            (v ← owner_of_repo_url u; Ok (v, obj)) = Err e → record_error obj_type e).
  { intros u H. apply bind_error in H as [H|(? & _ & H)]; [|discriminate].
    apply owner_of_repo_url_error in H as ->. pick_error. }
  assert (Hrest :
    (if has_source && bool_decide (is_Some (obj !! "source_url"))
        && truthy (default JNull (obj !! "source_url"))
     then v ← owner_of_repo_url (default JNull (obj !! "source_url")); Ok (v, obj)
     else if has_collection && bool_decide (is_Some (obj !! "collection_url"))
             && truthy (default JNull (obj !! "collection_url"))
     then v ← owner_of_repo_url (default JNull (obj !! "collection_url")); Ok (v, obj)
     else Err (InvalidOwnerError obj_type)) = Err e → record_error obj_type e).
  { destruct (_ && _ && _); [apply Hderived|].
    destruct (_ && _ && _); [apply Hderived|].
    intros [= <-]. pick_error. }
  destruct (obj !! "owner") as [obj_owner|]; [|exact Hrest].
  destruct (obj !! "owner_type") as [obj_owner_type|]; [|exact Hrest].
  destruct (eq_str obj_owner_type OBJ_TYPE_ORGANIZATION).
  { intros H. apply owner_address_error in H as [-> | ->]; pick_error. }
  destruct (eq_str JNull OBJ_TYPE_USER).
  { intros H. apply owner_address_error in H as [-> | ->]; pick_error. }
  intros [= <-]. pick_error.
Qed.

Lemma synthesize_repo_url_error (obj_owner_url : jval) (stem : string) (name : jval)
    (e : pyexc) :
  synthesize_repo_url obj_owner_url stem name = Err e → e = TypeError.
Proof.
  unfold synthesize_repo_url. intros H.
  apply bind_error in H as [H|(s & _ & H)]; [by apply add_str_error in H|].
  apply bind_error in H as [H|(? & _ & H)]; [by apply str_add_error in H|discriminate].
Qed.

Lemma resolve_repo_error (obj_type : string) (has_source has_collection : bool)
    (obj_owner_url : jval) (obj : record) (e : pyexc) :
  resolve_repo obj_type has_source has_collection obj_owner_url obj = Err e →
  record_error obj_type e.
Proof.
  assert (Hsyn : ∀ stem name (obj' : record),
            (u ← synthesize_repo_url obj_owner_url stem name; Ok (u, obj')) = Err e →
            record_error obj_type e).
  { intros stem name obj' H. apply bind_error in H as [H|(? & _ & H)]; [|discriminate].
    apply synthesize_repo_url_error in H as ->. pick_error. }
  unfold resolve_repo. destruct has_source.
  - destruct (obj !! "source_url"); [discriminate|].
    destruct (obj !! "source"); [apply Hsyn|]. intros [= <-]. pick_error.
  - destruct has_collection; [|discriminate].
    destruct (obj !! "collection_url"); [discriminate|].
    destruct (obj !! "collection"); [apply Hsyn|]. intros [= <-]. pick_error.
Qed.

Lemma build_object_urls_error (d : obj_definition)
    (has_owner has_source has_collection : bool)
    (obj_owner_url obj_repo_url obj_id : jval) (e : pyexc) :
  build_object_urls d has_owner has_source has_collection
    obj_owner_url obj_repo_url obj_id = Err e →
  e = TypeError.
Proof.
  assert (Hadd : ∀ (s new_obj_url : string),
            (t ← str_add s obj_id; Ok (new_obj_url, t ++ "/")) = Err e → e = TypeError).
  { intros s n H. apply bind_error in H as [H|(? & _ & H)]; [|discriminate].
    by apply str_add_error in H. }
  unfold build_object_urls.
  destruct (has_source || has_collection).
  - destruct obj_repo_url; try (by intros [= <-]).
    destruct (bool_decide _); [apply Hadd|].
    destruct (truthy obj_id); [apply Hadd|discriminate].
  - destruct has_owner; [|apply Hadd].
    destruct obj_owner_url; try (by intros [= <-]). apply Hadd.
Qed.

(** The exceptions of the resolution: the configuration error, for a type
    whose definition declares both a source and a collection, or an error
    of the record. *)
Lemma resolve_error (reg : gmap string obj_definition) (obj_type : string)
    (obj : record) (e : pyexc) :
  resolve reg obj_type obj = Err e →
  (e = InvalidObjectDefinition obj_type
   ∧ ∃ d, reg !! obj_type = Some d ∧ has_source d = true ∧ has_collection d = true)
  ∨ record_error obj_type e.
Proof.
  unfold resolve. destruct (reg !! obj_type) as [d|] eqn:Hd;
    [|intros [= <-]; right; pick_error].
  intros H. apply bind_error in H as [H|([[ho hs] hc] & _ & H)].
  { left. unfold containers in H.
    destruct (has_source d) eqn:Hs, (has_collection d) eqn:Hc; try discriminate.
    injection H as <-. eauto. }
  right.
  apply bind_error in H as [H|([obj_owner_url obj1] & _ & H)];
    [by apply resolve_owner_error in H|].
  apply bind_error in H as [H|([obj_repo_url obj2] & _ & H)];
    [by apply resolve_repo_error in H|].
  apply bind_error in H as [H|([new_obj_url obj_url] & _ & H)].
  { apply build_object_urls_error in H as ->. pick_error. }
  destruct (handle_query_params obj_type obj2) as [query_params obj3].
  destruct (partition_fields d obj3). discriminate.
Qed.

Lemma does_object_exist_error (st : OclFlexImporter.t) (obj_url : jval)
    (use_cache : bool) (e : pyexc) :
  (does_object_exist server st obj_url use_cache).2 = Err e →
  e = TypeError ∨ ∃ expression code, e = UnexpectedStatusCodeError expression code.
Proof.
  unfold does_object_exist. destruct obj_url; try (intros [= <-]; by left).
  destruct (use_cache && _); [discriminate|].
  unfold send. lazy beta iota.
  destruct (_ =? 200); [discriminate|]. destruct (_ =? 404); [discriminate|].
  intros [= <-]. eauto.
Qed.

Ltac probe_error H :=
  let st1 := fresh "st1" in
  destruct (does_object_exist _ _ _ _) as [st1 [[|]|[]]]; cbn [snd] in *;
  try discriminate;
  try (destruct (H _ eq_refl) as [?|(? & ? & ?)]; discriminate);
  try destruct (do_update_if_exists st1); cbn [negb];
  cbn [test_mode write_log]; try destruct (test_mode st1); cbn [negb snd];
  try discriminate; congruence.

Lemma check_owner_error (st : OclFlexImporter.t) (r : resolved) (e : pyexc) :
  (check_owner server st r).2 = Err e → e = TypeError.
Proof.
  unfold check_owner.
  destruct (res_has_owner r && truthy (res_obj_owner_url r)); [|discriminate].
  pose proof (does_object_exist_error st (res_obj_owner_url r) true) as H.
  probe_error H.
Qed.

Lemma check_repository_error (st : OclFlexImporter.t) (r : resolved) (e : pyexc) :
  (check_repository server st r).2 = Err e → e = TypeError.
Proof.
  unfold check_repository.
  destruct ((res_has_source r || res_has_collection r) && truthy (res_obj_repo_url r));
    [|discriminate].
  pose proof (does_object_exist_error st (res_obj_repo_url r) true) as H.
  probe_error H.
Qed.

Lemma check_object_error (st : OclFlexImporter.t) (obj_type : string) (r : resolved)
    (e : pyexc) :
  (check_object server st obj_type r).2 = Err e → e = TypeError.
Proof.
  unfold check_object.
  destruct (String.eqb obj_type "Reference").
  { unfold does_reference_exist. cbn [andb]. discriminate. }
  destruct (String.eqb obj_type "Mapping").
  { unfold does_mapping_exist. cbn [andb]. discriminate. }
  pose proof (does_object_exist_error st (JStr (res_obj_url r)) true) as H.
  probe_error H.
Qed.

Lemma add_error (r : OclImportResults.t) (obj_url action_type obj_type : string)
    (obj_repo_url : jval) (http_method : string) (obj_owner_url : jval)
    (status_code : option Z) (e : pyexc) :
  (OclImportResults.add r obj_url action_type obj_type obj_repo_url http_method
     obj_owner_url status_code).2 = Err e →
  e = TypeError ∨ e = IndexError.
Proof.
  unfold OclImportResults.add.
  destruct (to_key _) as [root|e'] eqn:Hkey.
  - destruct (_ !! KStr action_type) as [[d|]|]; cbn [snd]; try discriminate;
      intros [= <-]; destruct status_code; auto.
  - cbn [snd]. intros [= <-]. left.
    destruct (OclImportResults.logging_root _ _ _); simpl in Hkey; congruence.
Qed.

Lemma update_or_create_error (st : OclFlexImporter.t) (obj_type : string)
    (obj_id obj_owner_url obj_repo_url : jval) (obj_url new_obj_url : string)
    (obj_already_exists : bool) (obj obj_not_allowed query_params : record)
    (e : pyexc) :
  (update_or_create server urlencode st obj_type obj_id obj_owner_url obj_repo_url
     obj_url new_obj_url obj_already_exists obj obj_not_allowed query_params).2 = Err e →
  record_error obj_type e ∨ ∃ code, e = HTTPError code.
Proof.
  unfold update_or_create.
  destruct (registry st !! obj_type) as [d|]; [|intros [= <-]; left; pick_error].
  destruct obj_already_exists; lazy beta iota.
  { by destruct (test_mode st). }
  destruct (test_mode st); [discriminate|].
  assert (Hsend : ∀ (m : string) (sent : OclFlexImporter.t * Z),
    (let '(st1, status_code) := sent in
     let st2 := write_log st1 (LogStatusCode status_code) in
     let st3 := write_log st2 LogHeaders in
     let st4 := write_log st3 LogText in
     let '(r, added) :=
       OclImportResults.add (import_results st4) obj_url ACTION_TYPE_NEW obj_type
         obj_repo_url m obj_owner_url (Some status_code) in
     let st5 := set_import_results st4 r in
     match added with
     | Err e => (st5, Err e)
     | Ok _ => (st5, raise_for_status status_code)
     end).2 = Err e →
    record_error obj_type e ∨ ∃ code, e = HTTPError code).
  { intros m [st1 code]. cbv zeta.
    pose proof (add_error (import_results
                  (write_log (write_log (write_log st1 (LogStatusCode code))
                     LogHeaders) LogText))
                  obj_url ACTION_TYPE_NEW obj_type obj_repo_url m obj_owner_url
                  (Some code)) as Hadd.
    destruct (OclImportResults.add _ _ _ _ _ _ _ _) as [ra [|e']]; cbn [snd] in *.
    - unfold raise_for_status. destruct (_ && _); [|discriminate].
      intros [= <-]. eauto.
    - intros [= <-]. left. destruct (Hadd _ eq_refl) as [-> | ->]; pick_error. }
  destruct (create_method d) as [m|]; [|intros [= <-]; left; pick_error].
  destruct (String.eqb m "POST"); [apply Hsend|].
  destruct (String.eqb m "PUT"); [apply Hsend|].
  intros [= <-]. left. pick_error.
Qed.

Lemma create_or_update_error (st : OclFlexImporter.t) (obj_type : string)
    (r : resolved) (obj_already_exists : bool) (e : pyexc) :
  (create_or_update server urlencode st obj_type r obj_already_exists).2 = Err e →
  record_error obj_type e.
Proof.
  unfold create_or_update.
  pose proof (update_or_create_error st obj_type (res_obj_id r) (res_obj_owner_url r)
                (res_obj_repo_url r) (res_obj_url r) (res_new_obj_url r)
                obj_already_exists (res_obj r) (res_obj_not_allowed r)
                (res_query_params r)) as H.
  destruct (update_or_create _ _ _ _ _ _ _ _ _ _ _ _ _) as [st1 [|e']];
    cbn [snd] in *; [discriminate|].
  destruct (H _ eq_refl) as [Hrec|(code & ->)]; [|discriminate].
  destruct e'; cbn [snd]; intros [= <-]; exact Hrec.
Qed.

(** What [process_object] can raise: the configuration error, when the
    definition of the type is contradictory, or an error of the record. It
    raises no transport error: those are caught and logged. *)
Lemma process_object_error (st : OclFlexImporter.t) (obj_type : string)
    (obj : record) (e : pyexc) :
  (process_object server urlencode st obj_type obj).2 = Err e →
  (e = InvalidObjectDefinition obj_type
   ∧ ∃ d, registry st !! obj_type = Some d
          ∧ has_source d = true ∧ has_collection d = true)
  ∨ record_error obj_type e.
Proof.
  unfold process_object.
  destruct (resolve (registry st) obj_type obj) as [r|e'] eqn:Hres.
  2: { cbn [snd]. intros [= <-]. by apply resolve_error in Hres. }
  intros H. right. revert H.
  pose proof (check_owner_error (log_debug_info st obj_type r) r) as H1.
  destruct (check_owner server _ r) as [st1 [[x1|]|e1]]; cbn [snd] in *;
    [discriminate| |intros [= <-]; rewrite (H1 _ eq_refl); pick_error].
  pose proof (check_repository_error st1 r) as H2.
  destruct (check_repository server st1 r) as [st2 [[x2|]|e2]]; cbn [snd] in *;
    [discriminate| |intros [= <-]; rewrite (H2 _ eq_refl); pick_error].
  pose proof (check_object_error st2 obj_type r) as H3.
  destruct (check_object server st2 obj_type r) as [st3 [[x3|found]|e3]];
    cbn [snd] in *;
    [discriminate| |intros [= <-]; rewrite (H3 _ eq_refl); pick_error].
  apply create_or_update_error.
Qed.

(** An exception out of [process_line] is the [TypeError] of a line that
    cannot be skipped, or comes out of [process_object] for a line of a
    type of the registry. *)
Lemma process_line_error (st : OclFlexImporter.t) (c : counters) (ln : line)
    (e : pyexc) :
  (process_line server urlencode st c ln).2 = Err e →
  e = TypeError
  ∨ ∃ ty, json_line_obj ln !! "type" = Some (JStr ty)
          ∧ (process_object server urlencode (write_log st LogBlank) ty
               (delete "type" (json_line_obj ln))).2 = Err e.
Proof.
  unfold process_line.
  destruct (json_line_obj ln !! "type") as [[| | |ty| |]|];
    try (pose proof (add_skip_error (import_results st)) as Hskip;
         match goal with
         | |- context [OclImportResults.add_skip ?r ?t ?x] =>
           specialize (Hskip t x);
           destruct (OclImportResults.add_skip r t x) as [r' [|e']]; cbn [snd] in *;
           intros [= <-]; left; auto
         end; fail).
  destruct (bool_decide _).
  - destruct (process_object _ _ _ _ _) as [st1 [|e']] eqn:Hobj; cbn [snd];
      [discriminate|]. intros [= <-]. right. exists ty. by rewrite Hobj.
  - pose proof (add_skip_error (import_results st) (JStr ty) (json_line_raw ln))
      as Hskip.
    destruct (OclImportResults.add_skip _ _ _) as [r' [|e']]; cbn [snd] in *;
      [discriminate|]. intros [= <-]. left. auto.
Qed.

(** An exception that ends the loop of the driver is a [TypeError] or
    belongs to a line of the file: the configuration error, if the
    definition of the type of that line is contradictory, or an error of
    that record. *)
Lemma process_lines_error (st : OclFlexImporter.t) (c : counters)
    (json_file : list line) (e : pyexc) :
  (process_lines server urlencode st c json_file).2 = Err e →
  e = TypeError
  ∨ ∃ ln ty, ln ∈ json_file ∧ json_line_obj ln !! "type" = Some (JStr ty)
             ∧ ((e = InvalidObjectDefinition ty
                 ∧ ∃ d, registry st !! ty = Some d
                        ∧ has_source d = true ∧ has_collection d = true)
                ∨ record_error ty e).
Proof.
  revert st c. induction json_file as [|ln rest IH]; intros st c; [discriminate|].
  cbn [process_lines].
  destruct ((0 <? limit st) && (limit st <=? count c)); [discriminate|].
  pose proof (process_line_error st c ln) as Hline.
  pose proof (process_line_settings server urlencode st c ln) as (Hreg & _).
  destruct (process_line server urlencode st c ln) as [[st1 c1] [[]|e1]];
    cbn [fst snd] in *.
  - intros H. destruct (IH st1 c1 H) as [->|(ln' & ty & Hin & Hty & Herr)];
      [by left|right].
    exists ln', ty. rewrite Hreg in Herr. split; [by apply list_elem_of_further|done].
  - intros [= <-]. destruct (Hline _ eq_refl) as [->|(ty & Hty & Hobj)];
      [by left|right].
    exists ln, ty. split; [apply list_elem_of_here|]. split; [done|].
    by apply process_object_error in Hobj.
Qed.

End Exceptions.

(** ** Completed runs *)

Section Completed.

Variable server : list request → request → Z.
Variable urlencode : record → string.







End Completed.



(** ** The fields that are transmitted *)

Section Fields.

Variable server : list request → request → Z.
Variable urlencode : record → string.







End Fields.


(** ** What the aggregator reports *)

Section Summary.

Import OclImportResults.

Variable int_of_str : string → result Z.





End Summary.


(** ** The position that [find_nth] returns *)

Section Positions.









End Positions.


(** ** Addresses and file names *)

Section Addresses.








End Addresses.


Section Filenames.

Import DatimBase.








End Filenames.

(** ** Test runs and the limit *)

Section Runs.

Variable server : list request → request → Z.
Variable urlencode : record → string.







End Runs.



(** ** Successful outcomes *)

Section Success.

Import OclImportResults.

Variable int_of_str : string → result Z.






End Success.


(** ** Contradictory definitions *)

Section Contradictory.

Variable server : list request → request → Z.
Variable urlencode : record → string.

(** A record of a type whose definition declares both a source and a
    collection is refused before anything is done for it. *)
Lemma process_object_contradictory (st : OclFlexImporter.t) (ty : string)
    (d : obj_definition) (obj : record) :
  registry st !! ty = Some d →
  has_source d = true → has_collection d = true →
  process_object server urlencode st ty obj = (st, Err (InvalidObjectDefinition ty)).
Proof.
  intros Hd Hs Hc. unfold process_object, resolve, containers.
  by rewrite Hd, Hs, Hc.
Qed.

(** The driver takes the lines one after the other: a file in two parts is
    processed by processing the first part, and then the second part from
    where the first part ended, unless the limit stopped the run there. *)
Lemma process_lines_app (st st1 : OclFlexImporter.t) (c c1 : counters)
    (before after : list line) :
  process_lines server urlencode st c before = (st1, c1, Ok tt) →
  ¬ (0 < limit st1 ∧ limit st1 ≤ count c1) →
  process_lines server urlencode st c (before ++ after)
  = process_lines server urlencode st1 c1 after.
Proof.
  revert st c. induction before as [|ln before IH]; intros st c Hrun Hlimit.
  - cbn in Hrun. by injection Hrun as <- <-.
  - cbn [process_lines app] in *.
    destruct ((0 <? limit st) && (limit st <=? count c)) eqn:Hcut.
    + injection Hrun as <- <-. exfalso. apply Hlimit. lia.
    + destruct (process_line server urlencode st c ln) as [[st' c'] [[]|e]];
        [|discriminate].
      by apply IH.
Qed.

(** C8, amended. The contradiction is found when a record of the type is
    resolved, not before the file is read: the lines before it are processed
    as usual, and then [process_object] raises the configuration error for
    this record before it resolves an address or sends a request. The driver
    does not catch the error, so [process] ends with it. When no record of
    the file has a type whose definition is contradictory, [process] never
    ends with the configuration error, whatever the registry holds for the
    other types. *)
Theorem contradictory_definition_stops_run_at_its_record (st : OclFlexImporter.t)
    (json_file : list line) :
  let start := set_import_results
                 (if negb (verbosity st =? 0) then write_log st LogSettings else st)
                 (OclImportResults.init
                    (if skip_line_count st then 0
                     else Z.of_nat (List.length json_file))) in
  (∀ (st1 : OclFlexImporter.t) (c1 : counters) (before after : list line) (ln : line)
     (ty : string) (d : obj_definition),
     json_file = (before ++ ln :: after)%list →
     process_lines server urlencode start
       {| count := 0; num_processed := 0; num_skipped := 0 |} before
     = (st1, c1, Ok tt) →
     ¬ (0 < limit st1 ∧ limit st1 ≤ count c1) →
     json_line_obj ln !! "type" = Some (JStr ty) →
     registry st1 !! ty = Some d →
     has_source d = true → has_collection d = true →
     process_object server urlencode (write_log st1 LogBlank) ty
       (delete "type" (json_line_obj ln))
     = (write_log st1 LogBlank, Err (InvalidObjectDefinition ty))
     ∧ process server urlencode st json_file
       = (write_log st1 LogBlank, Err (InvalidObjectDefinition ty)))
  ∧ ((∀ (ln : line) (ty : string) (d : obj_definition),
        ln ∈ json_file →
        json_line_obj ln !! "type" = Some (JStr ty) →
        registry st !! ty = Some d →
        has_source d = false ∨ has_collection d = false) →
     ∀ ty, (process server urlencode st json_file).2
           ≠ Err (InvalidObjectDefinition ty)).
Proof.
  intros start. split.
  - intros st1 c1 before after ln ty d -> Hbefore Hlimit Hty Hd Hs Hc.
    assert (Hobj : process_object server urlencode (write_log st1 LogBlank) ty
                     (delete "type" (json_line_obj ln))
                   = (write_log st1 LogBlank, Err (InvalidObjectDefinition ty))).
    { by apply (process_object_contradictory _ _ d). }
    split; [exact Hobj|].
    subst start. unfold process. cbv zeta.
    replace (skip_line_count
               (if negb (verbosity st =? 0) then write_log st LogSettings else st))
      with (skip_line_count st) by (by destruct (negb _)).
    rewrite (process_lines_app _ _ _ _ _ _ Hbefore Hlimit).
    cbn [process_lines].
    assert ((0 <? limit st1) && (limit st1 <=? count c1) = false) as -> by lia.
    unfold process_line. rewrite Hty. rewrite bool_decide_true by eauto.
    by rewrite Hobj.
  - intros Hfile ty Hrun. unfold process in Hrun. cbv zeta in Hrun.
    destruct (process_lines _ _ _ _ _) as [[st1 c1] [[]|e]] eqn:Hloop;
      cbn [snd] in Hrun; [discriminate|]. injection Hrun as ->.
    match type of Hloop with
    | process_lines _ _ ?s ?c _ = _ =>
      pose proof (process_lines_error server urlencode s c json_file
                    (InvalidObjectDefinition ty)) as Herr
    end.
    rewrite Hloop in Herr.
    destruct (Herr eq_refl) as [?|(ln & ty' & Hin & Hty & [(_ & d & Hd & Hs & Hc)|Hrec])];
      [discriminate| |].
    + assert (Hreg : registry st !! ty' = Some d).
      { rewrite <- Hd. by destruct (negb (verbosity st =? 0)). }
      destruct (Hfile ln ty' d Hin Hty Hreg); congruence.
    + unfold record_error in Hrec.
      destruct Hrec as [?|[?|[?|[?|[?|[?|?]]]]]]; discriminate.
Qed.

End Contradictory.

Lemma contradictory_definition_stops_run_at_its_record_witness :
  let ln := {| json_line_raw := "{type: Bad, id: B1}";
               json_line_obj := list_to_map [("type", JStr "Bad"); ("id", JStr "B1")] |} in
  let start := set_import_results
                 (write_log example_contradictory_importer LogSettings)
                 (OclImportResults.init 2) in
  let st1 := (process_lines example_server (fun _ => "") start
                {| count := 0; num_processed := 0; num_skipped := 0 |}
                example_organization_file).1.1 in
  process example_server (fun _ => "") example_contradictory_importer
    (example_organization_file ++ [ln])
  = (write_log st1 LogBlank, Err (InvalidObjectDefinition "Bad"))
  ∧ ∀ ty, (process example_server (fun _ => "") example_contradictory_importer
             example_organization_file).2 ≠ Err (InvalidObjectDefinition ty).
Proof.
  intros ln start st1. split.
  - refine (proj2 (proj1 (contradictory_definition_stops_run_at_its_record
              example_server (fun _ => "") example_contradictory_importer
              (example_organization_file ++ [ln]))
              st1 {| count := 1; num_processed := 1; num_skipped := 0 |}
              example_organization_file [] ln "Bad" _ eq_refl _ _ _ _ _ _)).
    + vm_compute. reflexivity.
    + vm_compute. intros [H _]. discriminate.
    + vm_compute. reflexivity.
    + vm_compute. reflexivity.
    + reflexivity.
    + reflexivity.
  - apply (proj2 (contradictory_definition_stops_run_at_its_record
              example_server (fun _ => "") example_contradictory_importer
              example_organization_file)).
    intros ln' ty d Hin Hty Hd.
    apply list_elem_of_singleton in Hin. subst ln'.
    vm_compute in Hty. injection Hty as <-.
    vm_compute in Hd. injection Hd as <-. by left.
Defined.

(** C8 as stated fails: with a contradictory definition in the registry, a
    file without a record of that type is imported to its end. *)
Lemma contradictory_definition_stops_run_at_start_fails :
  ¬ contradictory_definition_stops_run_at_start.
Proof.
  intros H.
  destruct (H example_server (fun _ => "") example_contradictory_importer
              example_organization_file) as (st' & ty & Hrun & _).
  - exists "Bad". eexists. split; [vm_compute; reflexivity|]. by split.
  - vm_compute in Hrun. discriminate.
Qed.

